(** * new_scrape.py: selector resolution, column extraction and table assembly

  A shallow embedding of [src/new_scrape.py].  Python values are modelled by
  an inductive type of cells, the [data] dict by an insertion-ordered
  association list, the [debug_info] list and the calls made on the outside
  world by a small state-and-exception monad.  The libraries the script
  calls (requests, BeautifulSoup's CSS engine, [re.compile] on user text,
  [urljoin], Selenium) and what depends on the interpreter (the limit on
  integer strings, the decimal digits of its Unicode database) are fields
  of an environment record. *)

From Stdlib Require Import String Ascii List ZArith Lia Bool Arith.
From Stdlib Require Import Numbers.DecimalString.
From Stdlib Require Import Sorting.Sorted Sorting.Permutation.
Import ListNotations.
Open Scope list_scope.
Open Scope string_scope.

(** ** Python strings *)

Module Str.

Fixpoint all_chars (p : ascii -> bool) (s : string) : bool :=
  match s with
  | EmptyString => true
  | String c r => p c && all_chars p r
  end.

(** [needle in hay] for Python strings. *)
Fixpoint contains (needle hay : string) : bool :=
  String.prefix needle hay ||
  match hay with
  | EmptyString => false
  | String _ r => contains needle r
  end.

(** [s.split(sep)] for a one-character separator. *)
Fixpoint split_on (sep : ascii) (s : string) : list string :=
  match s with
  | EmptyString => [EmptyString]
  | String c r =>
      if Ascii.eqb c sep then EmptyString :: split_on sep r
      else match split_on sep r with
           | [] => [String c EmptyString]
           | w :: ws => String c w :: ws
           end
  end.

(** [sep.join(ws)]. *)
Fixpoint join (sep : string) (ws : list string) : string :=
  match ws with
  | [] => EmptyString
  | [w] => w
  | w :: rest => w ++ sep ++ join sep rest
  end.

(** [str(n)] for a non-negative int and for an int. *)
Definition of_nat (n : nat) : string := NilZero.string_of_uint (Nat.to_uint n).
Definition of_Z (z : Z) : string := NilZero.string_of_int (Z.to_int z).


(** [s * n]. *)
Fixpoint times (n : nat) (s : string) : string :=
  match n with
  | O => EmptyString
  | S k => s ++ times k s
  end.

End Str.

(** ** Exceptions *)

Inductive Exc (A : Type) : Type :=
| Ok (a : A)
| Raise (msg : string).
Arguments Ok {A} a.
Arguments Raise {A} msg.

(** ** Characters

    A Python str is kept as the bytes of its UTF-8 encoding.  Its characters
    are code points, and that is what [len], the pattern [\d] and the
    conversions [int] and [float] go by. *)

Module Utf8.

Definition continuation (c : ascii) : bool :=
  let n := N_of_ascii c in N.leb 128 n && N.ltb n 192.

(** The six bits a continuation byte carries. *)
Definition payload (c : ascii) : N := N_of_ascii c - 128.

(** [list(s)], as code points.  A byte outside a well-formed sequence stands
    for itself; the encoding of a str has none. *)
Fixpoint decode (s : string) : list N :=
  match s with
  | EmptyString => []
  | String b0 r =>
      let n0 := N_of_ascii b0 in
      match r with
      | String b1 r1 =>
          if N.leb 192 n0 && N.ltb n0 224 && continuation b1
          then ((n0 - 192) * 64 + payload b1)%N :: decode r1
          else
            match r1 with
            | String b2 r2 =>
                if N.leb 224 n0 && N.ltb n0 240
                   && continuation b1 && continuation b2
                then ((n0 - 224) * 4096 + payload b1 * 64 + payload b2)%N
                       :: decode r2
                else
                  match r2 with
                  | String b3 r3 =>
                      if N.leb 240 n0 && N.ltb n0 248 && continuation b1
                         && continuation b2 && continuation b3
                      then ((n0 - 240) * 262144 + payload b1 * 4096
                            + payload b2 * 64 + payload b3)%N :: decode r3
                      else n0 :: decode r
                  | EmptyString => n0 :: decode r
                  end
            | EmptyString => n0 :: decode r
            end
      | EmptyString => [n0]
      end
  end.

(** [len(s)] of a str: its number of characters. *)
Definition len (s : string) : nat := List.length (decode s).

End Utf8.

(** The decimal digits of the interpreter's Unicode database (category Nd):
    the ten ASCII digits and, beyond ASCII, runs of ten consecutive code
    points, each run given by the code point of its zero. *)

Module Unicode.

Definition find_zero (zeros : list N) (cp : N) : option N :=
  find (fun z => N.leb z cp && N.ltb cp (z + 10)) zeros.

(** The digit a character stands for, if it is a decimal digit: what [\d]
    matches and what [int] and [float] read. *)
Definition to_decimal (zeros : list N) (cp : N) : option Z :=
  if N.ltb cp 128
  then if N.leb 48 cp && N.leb cp 57 then Some (Z.of_N (cp - 48)) else None
  else option_map (fun z => Z.of_N (cp - z)) (find_zero zeros cp).

Definition is_decimal (zeros : list N) (cp : N) : bool :=
  match to_decimal zeros cp with
  | Some _ => true
  | None => false
  end.

Definition decimal_value (zeros : list N) (cp : N) : Z :=
  match to_decimal zeros cp with
  | Some v => v
  | None => 0%Z
  end.

(** The zeros beyond ASCII in Unicode 14.0.0, the database of CPython 3.11:
    Arabic-Indic 1632, Extended Arabic-Indic 1776, ..., fullwidth 65296,
    ... *)
Definition zeros_14_0 : list N :=
  [
    1632; 1776; 1984; 2406; 2534; 2662; 2790; 2918;
    3046; 3174; 3302; 3430; 3558; 3664; 3792; 3872;
    4160; 4240; 6112; 6160; 6470; 6608; 6784; 6800;
    6992; 7088; 7232; 7248; 42528; 43216; 43264; 43472;
    43504; 43600; 44016; 65296; 66720; 68912; 69734; 69872;
    69942; 70096; 70384; 70736; 70864; 71248; 71360; 71472;
    71904; 72016; 72784; 73040; 73120; 92768; 92864; 93008;
    120782; 120792; 120802; 120812; 120822; 123200; 123632; 125264;
    130032
  ]%N.

End Unicode.

(** ** The number pattern [\d+\.?\d*] and the conversions [int], [float]

    All of it on the characters of the text; [zeros] is the interpreter's
    table of decimal digits. *)

Module Number.

Definition dot : N := 46.

Definition is_dot (c : N) : bool := N.eqb c dot.

(** Longest run of digits at the start of [s], and what follows it. *)
Fixpoint span_digits (zeros : list N) (s : list N) : list N * list N :=
  match s with
  | [] => ([], [])
  | c :: r =>
      if Unicode.is_decimal zeros c
      then let (d, t) := span_digits zeros r in (c :: d, t)
      else ([], s)
  end.

(** The pattern [\d+\.?\d*] matched at the start of [s]: the match and the
    rest of the text.  Every quantifier is greedy and none has to give
    anything back. *)
Definition match_here (zeros : list N) (s : list N)
  : option (list N * list N) :=
  match span_digits zeros s with
  | ([], _) => None
  | (d1, []) => Some (d1, [])
  | (d1, c :: r) =>
      if is_dot c
      then let (d2, t) := span_digits zeros r in Some ((d1 ++ dot :: d2)%list, t)
      else Some (d1, c :: r)
  end.

(** Leftmost match, as [re.search]. *)
Fixpoint search (zeros : list N) (s : list N) : option (list N * list N) :=
  match match_here zeros s with
  | Some m => Some m
  | None =>
      match s with
      | [] => None
      | _ :: r => search zeros r
      end
  end.

(** [re.findall(r'\d+\.?\d*', s)]: the matches from left to right, none
    overlapping.  A match is never empty, so [S (length s)] rounds are
    enough (lemma [findall_rounds_enough]). *)
Fixpoint findall_rounds (zeros : list N) (rounds : nat) (s : list N)
  : list (list N) :=
  match rounds with
  | O => []
  | S k =>
      match search zeros s with
      | None => []
      | Some (m, rest) => m :: findall_rounds zeros k rest
      end
  end.

Definition findall (zeros : list N) (s : list N) : list (list N) :=
  findall_rounds zeros (S (List.length s)) s.

Fixpoint digits_value (zeros : list N) (acc : Z) (s : list N) : Z :=
  match s with
  | [] => acc
  | c :: r => digits_value zeros (acc * 10 + Unicode.decimal_value zeros c)%Z r
  end.

(** The text has more characters than a limit that is switched on. *)
Definition over_limit (max_str_digits : nat) (s : list N) : bool :=
  Nat.ltb 0 max_str_digits && Nat.ltb max_str_digits (List.length s).

(** [int(s)] on a string of decimal digits, which is all the pattern lets
    through.  CPython refuses a decimal string of more than
    [sys.get_int_max_str_digits()] digits with ValueError; the limit is
    4300 unless configured, and 0 switches it off. *)
Definition py_int (zeros : list N) (max_str_digits : nat) (s : list N)
  : option Z :=
  if negb (forallb (Unicode.is_decimal zeros) s) || Nat.eqb (List.length s) 0
  then None
  else if over_limit max_str_digits s then None
  else Some (digits_value zeros 0 s).

(** A float read from a decimal literal is kept as the decimal it was
    written as, [mant / 10 ^ scale]; CPython rounds it to the nearest
    double. *)
Record Decimal : Type := { mant : Z; scale : nat }.

Fixpoint split_dot (s : list N) : list N * option (list N) :=
  match s with
  | [] => ([], None)
  | c :: r =>
      if is_dot c then ([], Some r)
      else let (a, b) := split_dot r in (c :: a, b)
  end.

(** [float(s)] on the literals [digits], [digits.] and [digits.digits]
    (and [.digits]); there is no length limit on this conversion. *)
Definition py_float (zeros : list N) (s : list N) : option Decimal :=
  let (ip, rest) := split_dot s in
  let fp := match rest with Some f => f | None => [] end in
  if forallb (Unicode.is_decimal zeros) ip
     && forallb (Unicode.is_decimal zeros) fp
     && negb (Nat.eqb (List.length (ip ++ fp)%list) 0)
  then Some {| mant := digits_value zeros 0 (ip ++ fp)%list;
               scale := List.length fp |}
  else None.

End Number.

(** ** Cells of the table *)

Inductive Cell : Type :=
| VStr (s : string)              (* element text, or an absolute URL *)
| VInt (z : Z)
| VFloat (d : Number.Decimal)
| VNone.                         (* Python's None: nothing there, or padding *)

(** ** Documents, as BeautifulSoup hands them over

    A parsed document is the list of its tags in document order, the order
    in which [find_all] visits them. *)

Record Element : Type := {
  el_name : string;                  (* tag name *)
  el_class : option (list string);   (* the tokens of the class attribute *)
  el_href : option string;           (* element.get('href') *)
  el_text : string;                  (* element.text *)
  el_text_strip : string             (* element.get_text(strip=True) *)
}.

Definition Soup : Type := list Element.

Module Bs4.

(** How bs4 matches the multi-valued class attribute against a matcher [p]
    (string equality, a compiled pattern's search, or a callable): some token
    satisfies [p], or the whole attribute joined by spaces does. *)
Definition class_matches (p : string -> bool) (e : Element) : bool :=
  match el_class e with
  | None => false
  | Some toks => existsb p toks || p (Str.join " " toks)
  end.

Definition name_matches (tag : string) (e : Element) : bool :=
  String.eqb (el_name e) tag.

(** [soup.find_all(tag, class_=p)] *)
Definition find_all_class (tag : string) (p : string -> bool) (soup : Soup)
  : list Element :=
  filter (fun e => name_matches tag e && class_matches p e) soup.

(** [soup.find_all(attrs={"class": p})] *)
Definition find_all_attr_class (p : string -> bool) (soup : Soup) : list Element :=
  filter (class_matches p) soup.

(** [soup.find_all(attrs={"class": True})] *)
Definition find_all_with_class (soup : Soup) : list Element :=
  filter (fun e => match el_class e with Some _ => true | None => false end) soup.

(** [soup.find_all(tag)] and [soup.find(tag)] *)
Definition find_all_name (tag : string) (soup : Soup) : list Element :=
  filter (name_matches tag) soup.

Definition find (tag : string) (soup : Soup) : option Element :=
  hd_error (find_all_name tag soup).

End Bs4.

(** [re.compile(r"card|item|result")], compiled without flags: its [search]
    succeeds on the strings that contain one of the three words as written. *)
Definition card_pattern (s : string) : bool :=
  Str.contains "card" s || Str.contains "item" s || Str.contains "result" s.

(** ** The outside world *)

Record Response : Type := {
  status_code : Z;
  content : string
}.

(** A browser session, as far as the script uses it. *)
Record Driver : Type := {
  driver_get : string -> Exc unit;   (* driver.get(url) *)
  driver_title : Exc string;         (* driver.title *)
  driver_page_source : Exc string    (* driver.page_source *)
}.

Record Env : Type := {
  (* module globals, set at import and by the sidebar *)
  SELENIUM_AVAILABLE : bool;
  enable_debug : bool;
  save_html : bool;
  timeout : nat;
  wait_time : nat;
  headless : bool;
  (* the interpreter *)
  int_max_str_digits : nat;
  decimal_zeros : list N;   (* the zeros of its decimal digits beyond ASCII *)
  (* the libraries *)
  requests_get : string -> nat -> Exc Response;
  html_parser : string -> Soup;                       (* BeautifulSoup(_, 'html.parser') *)
  re_compile : string -> Exc (string -> bool);        (* re.compile(p).search, or re.error *)
  soup_select : Soup -> string -> Exc (list Element); (* soup.select(selector) *)
  urljoin : string -> string -> Exc string;
  write_html : Soup -> Exc unit;                      (* open(...).write(str(soup)) *)
  webdriver_Chrome : list string -> Exc Driver        (* webdriver.Chrome(options) *)
}.

(** What the script does to the outside world, in the order it does it. *)
Inductive Event : Type :=
| FindAllExact (tag css : string)     (* soup.find_all(tag, class_=css) *)
| FindAllPartial (tag part : string)  (* soup.find_all(tag, class_=re.compile(part)) *)
| SelectCss (selector : string)       (* soup.select(selector) *)
| BrowserStarted                      (* webdriver.Chrome(...) returned a driver *)
| BrowserGet (url : string)
| Sleep (seconds : nat)
| BrowserQuit                         (* driver.quit() *)
| StError (msg : string).             (* st.error(msg) *)

(** ** State and exceptions

    [debug_info] is a list that is appended to in place, so what was appended
    before an exception is still there in the handler. *)

Record State : Type := {
  debug_info : list string;
  events : list Event;
  driver : option Driver   (* the local variable [driver] of scrape_with_selenium *)
}.

Definition M (A : Type) : Type := State -> Exc A * State.

Definition ret {A} (a : A) : M A := fun st => (Ok a, st).

Definition bind {A B} (m : M A) (k : A -> M B) : M B :=
  fun st =>
    match m st with
    | (Ok a, st') => k a st'
    | (Raise msg, st') => (Raise msg, st')
    end.

Definition lift {A} (e : Exc A) : M A := fun st => (e, st).

(** [debug_info.append(line)] *)
Definition debug (line : string) : M unit :=
  fun st => (Ok tt, {| debug_info := debug_info st ++ [line];
                       events := events st; driver := driver st |}).

Definition emit (ev : Event) : M unit :=
  fun st => (Ok tt, {| debug_info := debug_info st;
                       events := events st ++ [ev]; driver := driver st |}).

Definition set_driver (d : option Driver) : M unit :=
  fun st => (Ok tt, {| debug_info := debug_info st;
                       events := events st; driver := d |}).

Definition get_driver : M (option Driver) := fun st => (Ok (driver st), st).

(** [try: body  except Exception as e: handler(str(e))] *)
Definition try_except {A} (body : M A) (handler : string -> M A) : M A :=
  fun st =>
    match body st with
    | (Ok a, st') => (Ok a, st')
    | (Raise msg, st') => handler msg st'
    end.

(** [try: body  finally: final]; the result of [body], a return value or an
    exception, survives [final] unless [final] raises itself. *)
Definition try_finally {A} (body : M A) (final : M unit) : M A :=
  fun st =>
    match body st with
    | (r, st') =>
        match final st' with
        | (Ok _, st'') => (r, st'')
        | (Raise msg, st'') => (Raise msg, st'')
        end
    end.

Declare Scope monad_scope.
Delimit Scope monad_scope with monad.
Notation "x <- m ;; k" := (bind m (fun x => k))
  (at level 61, m at next level, right associativity) : monad_scope.
Notation "m ;; k" := (bind m (fun _ => k))
  (at level 61, right associativity) : monad_scope.

Definition init : State := {| debug_info := []; events := []; driver := None |}.

(** ** The [data] dict: column name to list of cells, in insertion order *)

Definition Dict : Type := list (string * list Cell).

Module PyDict.

Definition mem (k : string) (d : Dict) : bool :=
  existsb (fun kv => String.eqb (fst kv) k) d.

Fixpoint get (k : string) (d : Dict) : option (list Cell) :=
  match d with
  | [] => None
  | (k', v) :: rest => if String.eqb k' k then Some v else get k rest
  end.

(** [d[k] = v]: an existing key keeps its place, a new one goes last. *)
Fixpoint set (k : string) (v : list Cell) (d : Dict) : Dict :=
  match d with
  | [] => [(k, v)]
  | (k', v') :: rest =>
      if String.eqb k' k then (k, v) :: rest else (k', v') :: set k v rest
  end.

Definition keys (d : Dict) : list string := map fst d.
Definition values (d : Dict) : list (list Cell) := map snd d.

(** [d[k].append(x)]; KeyError, whose text is the quoted key, without [k]. *)
Definition append (k : string) (x : Cell) (d : Dict) : Exc Dict :=
  match get k d with
  | Some v => Ok (set k (v ++ [x])%list d)
  | None => Raise ("'" ++ k ++ "'")
  end.

(** [len(d[k])] *)
Definition len_at (k : string) (d : Dict) : Exc nat :=
  match get k d with
  | Some v => Ok (List.length v)
  | None => Raise ("'" ++ k ++ "'")
  end.

End PyDict.

(** ** Column specifications *)

Record Column : Type := {
  name : string;
  tag : string;
  is_link : bool;
  as_numeric : bool
}.

Definition nonempty (s : string) : bool := negb (String.eqb s "").

Definition is_nil {A} (l : list A) : bool :=
  match l with [] => true | _ => false end.

Open Scope monad_scope.

(** ** debug_page_content *)

(** The distinct class tokens of the document: [all_classes]. *)
Definition all_classes (soup : Soup) : list string :=
  nodup string_dec
    (flat_map (fun e => match el_class e with Some toks => toks | None => [] end)
       (Bs4.find_all_with_class soup)).

Definition cards (soup : Soup) : list Element :=
  Bs4.find_all_attr_class card_pattern soup.

(** [find_all(attrs=lambda x: ... if isinstance(x, dict) else False)]: bs4
    reads an [attrs] that is not a dict as a matcher for the class attribute
    and calls it on attribute values, never on a dict, so it answers False. *)
Definition data_attrs (soup : Soup) : list Element :=
  Bs4.find_all_attr_class (fun _ => false) soup.

Definition debug_page_content (soup : Soup) (url : string) : list string :=
  let title := Bs4.find "title" soup in
  [ "Page Title: " ++ match title with
                      | Some t => el_text t
                      | None => "No title found"
                      end;
    "Total unique CSS classes found: " ++ Str.of_nat (List.length (all_classes soup));
    "Card-like elements found: " ++ Str.of_nat (List.length (cards soup));
    "Script tags found: " ++ Str.of_nat (List.length (Bs4.find_all_name "script" soup));
    "Elements with data attributes: " ++ Str.of_nat (List.length (data_attrs soup)) ].

(** ** Selector resolution (lines 210-233) *)

(** The loop of Strategy 2 over [css_class.split('.')], extending [elements]. *)
Fixpoint strategy2_parts (env : Env) (soup : Soup) (tg : string)
  (parts : list string) (elements : list Element) : M (list Element) :=
  match parts with
  | [] => ret elements
  | part :: rest =>
      if nonempty part then
        emit (FindAllPartial tg part) ;;
        re <- lift (re_compile env part) ;;
        strategy2_parts env soup tg rest
          (elements ++ Bs4.find_all_class tg re soup)%list
      else strategy2_parts env soup tg rest elements
  end.

Definition strategy1 (soup : Soup) (col : Column) (css_class : string)
  : M (list Element) :=
  emit (FindAllExact (tag col) css_class) ;;
  let elements := Bs4.find_all_class (tag col) (String.eqb css_class) soup in
  debug ("  Strategy 1 (exact class): "
           ++ Str.of_nat (List.length elements) ++ " elements") ;;
  ret elements.

Definition strategy2 (env : Env) (soup : Soup) (col : Column) (css_class : string)
  (elements : list Element) : M (list Element) :=
  if is_nil elements && Str.contains "." css_class then
    elements <- strategy2_parts env soup (tag col)
                  (Str.split_on "." css_class) elements ;;
    debug ("  Strategy 2 (partial class): "
             ++ Str.of_nat (List.length elements) ++ " elements") ;;
    ret elements
  else ret elements.

(** [css_class.replace('.', '.')] is [css_class]. *)
Definition css_selector (col : Column) (css_class : string) : string :=
  tag col ++ "." ++ css_class.

Definition strategy3 (env : Env) (soup : Soup) (col : Column) (css_class : string)
  (elements : list Element) : M (list Element) :=
  if is_nil elements then
    try_except
      (emit (SelectCss (css_selector col css_class)) ;;
       found <- lift (soup_select env soup (css_selector col css_class)) ;;
       debug ("  Strategy 3 (CSS selector): "
                ++ Str.of_nat (List.length found) ++ " elements") ;;
       ret found)
      (fun msg => debug ("  CSS selector failed: " ++ msg) ;; ret elements)
  else ret elements.

Definition resolve (env : Env) (soup : Soup) (col : Column) (css_class : string)
  : M (list Element) :=
  elements <- strategy1 soup col css_class ;;
  elements <- strategy2 env soup col css_class elements ;;
  strategy3 env soup col css_class elements.

(** ** Value extraction (lines 236-261) *)

(** What a numeric column appends for the element text [text]. *)
Definition numeric_cell (env : Env) (text : string) : Cell :=
  match Number.findall (decimal_zeros env) (Utf8.decode text) with
  | n0 :: _ =>
      let value :=
        if existsb Number.is_dot n0
        then option_map VFloat (Number.py_float (decimal_zeros env) n0)
        else option_map VInt
               (Number.py_int (decimal_zeros env) (int_max_str_digits env) n0) in
      match value with
      | Some v => v
      | None => VStr text     (* except ValueError *)
      end
  | [] => VNone
  end.

(** The body of the [try] of one element: the cell it appends, or the
    exception it dies of. *)
Definition extract_element (env : Env) (url : string) (col : Column)
  (data : Dict) (element : Element) : Exc Dict :=
  if is_link col then
    match el_href element with
    | Some href =>
        if nonempty href then
          match urljoin env url href with
          | Ok full_url => PyDict.append (name col) (VStr full_url) data
          | Raise msg => Raise msg
          end
        else PyDict.append (name col) VNone data
    | None => PyDict.append (name col) VNone data
    end
  else
    let text := el_text_strip element in
    if as_numeric col then PyDict.append (name col) (numeric_cell env text) data
    else PyDict.append (name col) (VStr text) data.

Fixpoint extract_elements (env : Env) (url : string) (col : Column)
  (elements : list Element) (data : Dict) (errors : list string)
  : Dict * list string :=
  match elements with
  | [] => (data, errors)
  | element :: rest =>
      match extract_element env url col data element with
      | Ok data' => extract_elements env url col rest data' errors
      | Raise msg =>
          extract_elements env url col rest data
            (List.app errors ["Error extracting from " ++ name col ++ ": " ++ msg])
      end
  end.

(** One round of [for col, css_class in zip(columns, css_classes)]. *)
Definition process_column (env : Env) (url : string) (soup : Soup)
  (col : Column) (css_class : string) (data : Dict) (errors : list string)
  : M (Dict * list string) :=
  if negb (nonempty css_class) || negb (nonempty (name col)) then ret (data, errors)
  else
    debug ("Looking for: " ++ tag col ++ "." ++ css_class) ;;
    elements <- resolve env soup col css_class ;;
    let (data', errors') := extract_elements env url col elements data errors in
    n <- lift (PyDict.len_at (name col) data') ;;
    debug ("  Final count for " ++ name col ++ ": " ++ Str.of_nat n) ;;
    ret (data', errors').

Fixpoint process_columns (env : Env) (url : string) (soup : Soup)
  (pairs : list (Column * string)) (data : Dict) (errors : list string)
  : M (Dict * list string) :=
  match pairs with
  | [] => ret (data, errors)
  | (col, css_class) :: rest =>
      r <- process_column env url soup col css_class data errors ;;
      process_columns env url soup rest (fst r) (snd r)
  end.

(** [{col["name"]: [] for col in columns if col["name"]}] *)
Definition init_data (columns : list Column) : Dict :=
  fold_left
    (fun d col => if nonempty (name col) then PyDict.set (name col) [] d else d)
    columns [].

(** ** Table assembly (lines 265-285) *)

(** [not any(data.values()) or all(len(v) == 0 for v in data.values())] *)
Definition no_data (data : Dict) : bool :=
  negb (existsb (fun v => negb (is_nil v)) (PyDict.values data))
  || forallb (fun v => Nat.eqb (List.length v) 0) (PyDict.values data).

(** One round of the loop that looks for the longest column. *)
Definition longest (max_len : nat) (col_data : list Cell) : nat :=
  if Nat.ltb max_len (List.length col_data) then List.length col_data else max_len.

Definition max_length (data : Dict) : nat :=
  fold_left longest (PyDict.values data) 0.

Definition pad_column (max_len : nat) (col_data : list Cell) : list Cell :=
  if Nat.ltb (List.length col_data) max_len
  then (col_data ++ repeat VNone (max_len - List.length col_data))%list
  else col_data.

Definition pad (max_len : nat) (data : Dict) : Dict :=
  map (fun kv => (fst kv, pad_column max_len (snd kv))) data.

(** A DataFrame built from a dict of lists: the columns in the dict's order.
    pandas refuses lists of different lengths. *)
Definition Table : Type := Dict.

Definition same_lengths (data : Dict) : bool :=
  match PyDict.values data with
  | [] => true
  | v :: vs => forallb (fun w => Nat.eqb (List.length w) (List.length v)) vs
  end.

Definition DataFrame (data : Dict) : Exc Table :=
  if same_lengths data then Ok data
  else Raise "All arrays must be of the same length".

Definition assemble (data : Dict) (errors : list string)
  : M (option Table * list string) :=
  if no_data data
  then ret (None, ["No data found with the specified selectors"])
  else
    let max_len := max_length data in
    if Nat.eqb max_len 0 then ret (None, ["No data extracted"])
    else
      df <- lift (DataFrame (pad max_len data)) ;;
      ret (Some df, errors).

(** ** scrape_with_requests *)

(** [if enable_debug: debug_info.extend(debug_page_content(soup, url))] *)
Definition log_page_content (env : Env) (soup : Soup) (url : string) : M unit :=
  if enable_debug env
  then fold_right (fun line m => debug line ;; m) (ret tt)
         (debug_page_content soup url)
  else ret tt.

(** [if save_html: ...]; writing the file can fail. *)
Definition save_page (env : Env) (soup : Soup) : M unit :=
  if save_html env
  then lift (write_html env soup) ;; debug "HTML saved to file"
  else ret tt.

(** From the parsed document on: lines 190-285. *)
Definition scrape_soup (env : Env) (url : string) (soup : Soup)
  (columns : list Column) (css_classes : list string)
  : M (option Table * list string) :=
  log_page_content env soup url ;;
  save_page env soup ;;
  r <- process_columns env url soup (combine columns css_classes)
         (init_data columns) [] ;;
  assemble (fst r) (snd r).

Definition scrape_with_requests_body (env : Env) (url : string)
  (columns : list Column) (css_classes : list string)
  : M (option Table * list string) :=
  response <- lift (requests_get env url (timeout env)) ;;
  debug ("HTTP Status: " ++ Str.of_Z (status_code response)) ;;
  debug ("Content Length: "
           ++ Str.of_nat (String.length (content response)) ++ " bytes") ;;
  if negb (Z.eqb (status_code response) 200)
  then ret (None, ["HTTP Error: " ++ Str.of_Z (status_code response)])
  else scrape_soup env url (html_parser env (content response))
         columns css_classes.

(** What a scrape returns: [df], [errors], [debug_info]. *)
Definition Outcome : Type := (option Table * list string * list string)%type.

(** The state in which the document is parsed: a fresh [debug_info] with the
    two lines about the response. *)
Definition after_fetch (response : Response) : State :=
  {| debug_info :=
       [ "HTTP Status: " ++ Str.of_Z (status_code response);
         "Content Length: "
           ++ Str.of_nat (String.length (content response)) ++ " bytes" ];
     events := [];
     driver := None |}.

(** How the function ends: a [return] inside the [try], or the handler
    [except Exception as e: return None, [f"Critical error: {str(e)}"],
    debug_info]. *)
Definition settle (r : Exc (option Table * list string) * State) : Outcome :=
  match r with
  | (Ok (df, errors), st) => (df, errors, debug_info st)
  | (Raise msg, st) => (None, ["Critical error: " ++ msg], debug_info st)
  end.

(** Run from a fresh [debug_info]; the events are kept beside the outcome. *)
Definition run_requests (env : Env) (url : string)
  (columns : list Column) (css_classes : list string) : Outcome * list Event :=
  let r := scrape_with_requests_body env url columns css_classes init in
  (settle r, events (snd r)).

Definition scrape_with_requests (env : Env) (url : string)
  (columns : list Column) (css_classes : list string) : Outcome :=
  fst (run_requests env url columns css_classes).

(** ** setup_selenium_driver and scrape_with_selenium *)

Definition chrome_arguments (headless_flag : bool) : list string :=
  ((if headless_flag then ["--headless"] else []) ++
   [ "--no-sandbox"; "--disable-dev-shm-usage"; "--disable-gpu";
     "--window-size=1920,1080";
     "--user-agent=Mozilla/5.0 (Windows NT 10.0; Win64; x64) AppleWebKit/537.36 (KHTML, like Gecko) Chrome/91.0.4472.124 Safari/537.36" ])%list.

Definition setup_selenium_driver (env : Env) (headless_flag : bool)
  : M (option Driver) :=
  if negb (SELENIUM_AVAILABLE env) then ret None
  else
    try_except
      (d <- lift (webdriver_Chrome env (chrome_arguments headless_flag)) ;;
       emit BrowserStarted ;;
       ret (Some d))
      (fun msg => emit (StError ("Failed to setup Chrome driver: " ++ msg)) ;;
                  ret None).

(** The name [scrape_with_requests_logic] is bound nowhere in the module:
    looking it up raises NameError before any argument is evaluated. *)
Definition scrape_with_requests_logic : M (option Table * list string) :=
  lift (Raise "name 'scrape_with_requests_logic' is not defined").

(** The [try] block of scrape_with_selenium, lines 299-318. *)
Definition selenium_try (env : Env) (url : string)
  (columns : list Column) (css_classes : list string)
  : M (option Table * list string) :=
  d <- setup_selenium_driver env (headless env) ;;
  set_driver d ;;
  match d with
  | None => ret (None, ["Failed to setup Chrome driver"])
  | Some drv =>
      debug "Chrome driver initialized" ;;
      emit (BrowserGet url) ;;
      lift (driver_get drv url) ;;
      title <- lift (driver_title drv) ;;
      debug ("Page loaded: " ++ title) ;;
      emit (Sleep (wait_time env)) ;;
      page_source <- lift (driver_page_source drv) ;;
      let soup := html_parser env page_source in
      debug ("Page source length: "
               ++ Str.of_nat (Utf8.len page_source) ++ " characters") ;;
      scrape_with_requests_logic
  end.

(** The [finally] block: [if driver: driver.quit()]. *)
Definition selenium_finally : M unit :=
  d <- get_driver ;;
  match d with
  | Some _ => emit BrowserQuit
  | None => ret tt
  end.

Definition scrape_with_selenium_body (env : Env) (url : string)
  (columns : list Column) (css_classes : list string)
  : M (option Table * list string) :=
  if negb (SELENIUM_AVAILABLE env) then ret (None, ["Selenium not available"])
  else
    set_driver None ;;
    try_finally
      (try_except (selenium_try env url columns css_classes)
         (fun msg => ret (None, ["Selenium error: " ++ msg])))
      selenium_finally.

(** Run from a fresh [debug_info]; an exception that escapes the function
    has no outcome. *)
Definition run_selenium (env : Env) (url : string)
  (columns : list Column) (css_classes : list string)
  : option Outcome * list Event :=
  match scrape_with_selenium_body env url columns css_classes init with
  | (Ok (df, errors), st) => (Some (df, errors, debug_info st), events st)
  | (Raise _, st) => (None, events st)
  end.

Definition scrape_with_selenium (env : Env) (url : string)
  (columns : list Column) (css_classes : list string) : option Outcome :=
  fst (run_selenium env url columns css_classes).

(** A browser session is held from the moment Chrome starts until it is
    quit: the number of sessions still open after a run. *)
Fixpoint sessions_open (evs : list Event) (open : nat) : nat :=
  match evs with
  | [] => open
  | BrowserStarted :: rest => sessions_open rest (S open)
  | BrowserQuit :: rest => sessions_open rest (pred open)
  | _ :: rest => sessions_open rest open
  end.

(** ** The claims' own words, to compare the code with *)

Module Claimed.
Import Number.

(** The pattern as the specification words it: optional digits, an optional
    single decimal point, at least one digit, i.e. [\d*\.?\d+], matched at
    the start of [s].  When a point follows the digits but no digit follows
    the point, the engine backs off and the digits alone match. *)
Definition match_here (zeros : list N) (s : list N)
  : option (list N * list N) :=
  match span_digits zeros s with
  | (d1, c :: r) =>
      if is_dot c
      then
        match span_digits zeros r with
        | (c2 :: d2, t) => Some ((d1 ++ dot :: c2 :: d2)%list, t)
        | ([], _) =>
            match d1 with
            | [] => None
            | _ => Some (d1, c :: r)
            end
        end
      else
        match d1 with
        | [] => None
        | _ => Some (d1, c :: r)
        end
  | ([], []) => None
  | (d1, []) => Some (d1, [])
  end.

Fixpoint search (zeros : list N) (s : list N) : option (list N * list N) :=
  match match_here zeros s with
  | Some m => Some m
  | None =>
      match s with
      | [] => None
      | _ :: r => search zeros r
      end
  end.

(** Number(integer) without a decimal point, Number(float) with one, Absent
    when nothing matches. *)
Definition numeric_cell (zeros : list N) (text : string) : Cell :=
  match search zeros (Utf8.decode text) with
  | Some (m, _) =>
      if existsb is_dot m
      then match py_float zeros m with Some d => VFloat d | None => VStr text end
      else VInt (digits_value zeros 0 m)
  | None => VNone
  end.


(** Lower case, for case-insensitive matching. *)
Definition lower_char (c : ascii) : ascii :=
  let n := nat_of_ascii c in
  if Nat.leb 65 n && Nat.leb n 90 then ascii_of_nat (n + 32) else c.

Fixpoint lower (s : string) : string :=
  match s with
  | EmptyString => EmptyString
  | String c r => String (lower_char c) (lower r)
  end.

(** The pattern [(card|item|result)] matched case-insensitively. *)
Definition card_pattern_ignorecase (s : string) : bool := card_pattern (lower s).

Definition cards (soup : Soup) : list Element :=
  Bs4.find_all_attr_class card_pattern_ignorecase soup.

(** One column per spec with a non-empty name and a non-empty selector. *)
Definition column_names (columns : list Column) (css_classes : list string)
  : list string :=
  map (fun p => name (fst p))
    (filter (fun p => nonempty (name (fst p)) && nonempty (snd p))
       (combine columns css_classes)).

End Claimed.

(** ** Reading aids for the statements *)

(** The characters of [s] are all decimal digits; none is. *)
Definition digits (zeros : list N) (s : list N) : Prop :=
  forallb (Unicode.is_decimal zeros) s = true.


Definition starts_with (p : N -> bool) (s : list N) : bool :=
  match s with
  | c :: _ => p c
  | [] => false
  end.


(** The two shapes a match of [\d+\.?\d*] can have. *)
Inductive match_shape (zeros : list N) (m : list N) : Prop :=
| shape_int : digits zeros m -> m <> [] -> match_shape zeros m
| shape_dotted (d1 d2 : list N) :
    m = (d1 ++ Number.dot :: d2)%list ->
    digits zeros d1 -> d1 <> [] -> digits zeros d2 -> match_shape zeros m.

(** The event is a lookup of Strategy 2. *)
Definition is_partial_call (ev : Event) : Prop :=
  exists t part, ev = FindAllPartial t part.

(** What Strategy 1 finds for a column. *)
Definition exact_matches (soup : Soup) (col : Column) (css_class : string)
  : list Element :=
  Bs4.find_all_class (tag col) (String.eqb css_class) soup.

(** A line of [errors] written by the handler of one element. *)
Definition is_extraction_error (line : string) : bool :=
  String.prefix "Error extracting from " line.

(** Keys in order of first occurrence. *)
Definition first_occurrences (ks : list string) : list string :=
  fold_left
    (fun acc k => if existsb (String.eqb k) acc then acc else (acc ++ [k])%list)
    ks [].

(** An element has a class token in which one of the three words occurs. *)
Definition has_card_token (e : Element) : bool :=
  match el_class e with
  | None => false
  | Some toks => existsb card_pattern toks
  end.

Definition outcome_table (o : Outcome) : option Table := fst (fst o).
Definition outcome_errors (o : Outcome) : list string := snd (fst o).

(** ** A small page and its surroundings, for worked examples *)

Module Demo.

Definition elem (nm : string) (cls : list string) (txt : string) : Element :=
  {| el_name := nm; el_class := Some cls; el_href := None;
     el_text := txt; el_text_strip := txt |}.

Definition page : Soup :=
  [ elem "div" ["card"; "author"] "Ada";
    elem "div" ["Card"] "Score: 42 pts";
    elem "span" ["RESULT"] "Rating: 3.5/5";
    elem "div" ["result-row"] "No digits here" ].

Definition browser : Driver :=
  {| driver_get := fun _ => Ok tt;
     driver_title := Ok "Demo";
     driver_page_source := Ok "<html></html>" |}.

(** Patterns without metacharacters search as substrings. *)
Definition env (status : Z) (soup : Soup) : Env :=
  {| SELENIUM_AVAILABLE := true;
     enable_debug := false;
     save_html := false;
     timeout := 20;
     wait_time := 10;
     headless := true;
     int_max_str_digits := 4300;
     decimal_zeros := Unicode.zeros_14_0;
     requests_get := fun _ _ => Ok {| status_code := status; content := "<html></html>" |};
     html_parser := fun _ => soup;
     re_compile := fun p => Ok (Str.contains p);
     soup_select := fun _ _ => Ok [];
     urljoin := fun base href => Ok (base ++ href);
     write_html := fun _ => Ok tt;
     webdriver_Chrome := fun _ => Ok browser |}.

Definition col (nm tg : string) : Column :=
  {| name := nm; tag := tg; is_link := false; as_numeric := false |}.

Definition cells (n : nat) : list Cell := repeat (VStr "x") n.

(** Columns of lengths 5, 3 and 5. *)
Definition ragged : Dict := [("a", cells 5); ("b", cells 3); ("c", cells 5)].

End Demo.

(** ** The rest of the page script *)

(** The class list of the debug button, lines 393-410.
    [sorted(list(all_classes))]: ascending, strings compared character by
    character. *)
Fixpoint insert_sorted (x : string) (l : list string) : list string :=
  match l with
  | [] => [x]
  | y :: r => if String.leb x y then x :: l else y :: insert_sorted x r
  end.

Definition sorted (l : list string) : list string :=
  fold_right insert_sorted [] l.

(** [range(0, n, 3)] *)
Definition range_by_3 (n : nat) : list nat :=
  map (fun k => 3 * k) (seq 0 ((n + 2) / 3)).

(** One row of [st.columns(3)]: the codes written for [j] = 0, 1, 2 while
    [i + j < len(classes_list)]. *)
Definition row_codes (classes_list : list string) (i : nat) : list string :=
  flat_map
    (fun j => if Nat.ltb (i + j) (List.length classes_list)
              then [nth (i + j) classes_list ""] else [])
    [0; 1; 2].

Definition class_rows (classes_list : list string) : list (list string) :=
  map (row_codes classes_list) (range_by_3 (List.length classes_list)).

(** What the debug button shows about classes: rows of codes, or the
    warning that none was found. *)
Inductive ClassDisplay : Type :=
| ClassRows (rows : list (list string))
| ClassWarning.

Definition show_classes (soup : Soup) : ClassDisplay :=
  if is_nil (all_classes soup) then ClassWarning
  else ClassRows (class_rows (sorted (all_classes soup))).

(** The scraping button, lines 416-456.  [len(df)] is the number of rows. *)
Definition df_len (df : Table) : nat :=
  match df with
  | [] => 0
  | (_, v) :: _ => List.length v
  end.

(** [scrape_button and url and any(col["name"] for col in columns)] *)
Definition scrape_requested (scrape_button : bool) (url : string)
  (columns : list Column) : bool :=
  scrape_button && nonempty url && existsb (fun col => nonempty (name col)) columns.

(** The choice of strategy, lines 418-421. *)
Definition dispatch (env : Env) (scrape_method : string) (url : string)
  (columns : list Column) (css_classes : list string) : option Outcome :=
  if String.eqb scrape_method "JavaScript (Selenium)" && SELENIUM_AVAILABLE env
  then scrape_with_selenium env url columns css_classes
  else Some (scrape_with_requests env url columns css_classes).

(** What the page ends on: the success line with the number of rows, or the
    line that no data could be extracted. *)
Inductive Shown : Type :=
| ShownRows (rows : nat)
| ShownNoData.

(** [if df is not None and len(df) > 0: ... else: ...] *)
Definition show_results (df : option Table) : Shown :=
  match df with
  | Some t => if Nat.ltb 0 (df_len t) then ShownRows (df_len t) else ShownNoData
  | None => ShownNoData
  end.

(** Nothing happens unless a scrape is requested; an exception that leaves
    the strategy has no display. *)
Definition main_scrape (env : Env) (scrape_button : bool) (scrape_method : string)
  (url : string) (columns : list Column) (css_classes : list string)
  : option Shown :=
  if scrape_requested scrape_button url columns
  then option_map (fun o => show_results (outcome_table o))
         (dispatch env scrape_method url columns css_classes)
  else None.

(** ** Reading aids for the further properties *)

(** [len(data[k])], 0 without the key. *)
Definition len_of (k : string) (data : Dict) : nat :=
  match PyDict.get k data with
  | Some v => List.length v
  | None => 0
  end.

(** The cell of an element in a column that is no link column. *)
Definition text_cell (env : Env) (col : Column) (element : Element) : Cell :=
  if as_numeric col then numeric_cell env (el_text_strip element)
  else VStr (el_text_strip element).

(** The cell of an element in a link column, [resolved] being what urljoin
    answers for its href. *)
Definition link_cell (resolved : string -> string) (element : Element) : Cell :=
  match el_href element with
  | Some href => if nonempty href then VStr (resolved href) else VNone
  | None => VNone
  end.

(** A computation only ever appends to [debug_info]. *)
Definition grows_debug {A} (m : M A) : Prop :=
  forall st, exists more,
    debug_info (snd (m st)) = (debug_info st ++ more)%list.

(** The state after more lines and more events. *)
Definition advance (st : State) (lines : list string) (evs : list Event) : State :=
  {| debug_info := (debug_info st ++ lines)%list;
     events := (events st ++ evs)%list;
     driver := driver st |}.

(** The non-empty tokens of a selector, as Strategy 2 walks them. *)
Definition selector_parts (css_class : string) : list string :=
  filter nonempty (Str.split_on "." css_class).

(** * Properties *)

(** ** Characters and the number pattern *)


Lemma span_digits_spec (zeros : list N) (s : list N) :
  forall d t, Number.span_digits zeros s = (d, t) ->
    s = (d ++ t)%list /\ digits zeros d /\
    starts_with (Unicode.is_decimal zeros) t = false.
Proof.
  unfold digits.
  induction s as [|c r IH]; simpl; intros d t E.
  - inversion E; subst; auto.
  - destruct (Unicode.is_decimal zeros c) eqn:Hc.
    + destruct (Number.span_digits zeros r) as [d' t'] eqn:Er.
      inversion E; subst; clear E.
      destruct (IH d' t eq_refl) as (-> & Hd & Ht).
      simpl. rewrite Hc, Hd. auto.
    + inversion E; subst; simpl; auto.
Qed.














Lemma match_here_shape (zeros : list N) (s m t : list N) :
  Number.match_here zeros s = Some (m, t) ->
  match_shape zeros m /\ s = (m ++ t)%list.
Proof.
  unfold Number.match_here.
  destruct (Number.span_digits zeros s) as [d1 r] eqn:E.
  destruct (span_digits_spec zeros s d1 r E) as (-> & Hd & Hr).
  destruct d1 as [|c d1]; [discriminate|].
  assert (Hne : c :: d1 <> []) by discriminate.
  destruct r as [|c' r].
  - intros H; inversion H; subst. split; [now apply shape_int | reflexivity].
  - destruct (Number.is_dot c') eqn:Hdot.
    + apply N.eqb_eq in Hdot. subst c'.
      destruct (Number.span_digits zeros r) as [d2 t'] eqn:E2.
      destruct (span_digits_spec zeros r d2 t' E2) as (-> & Hd2 & _).
      intros H; inversion H; subst. split.
      * now apply shape_dotted with (d1 := c :: d1) (d2 := d2).
      * simpl. f_equal. now rewrite <- app_assoc.
    + intros H; inversion H; subst. split; [now apply shape_int | reflexivity].
Qed.

Lemma search_shape (zeros : list N) (s m t : list N) :
  Number.search zeros s = Some (m, t) ->
  match_shape zeros m /\ List.length t < List.length s.
Proof.
  induction s as [|c r IH]; cbn [Number.search].
  - discriminate.
  - destruct (Number.match_here zeros (c :: r)) as [[m' t']|] eqn:E.
    + intros H; inversion H; subst.
      destruct (match_here_shape _ _ _ _ E) as [Hs Heq]. split; [exact Hs|].
      rewrite Heq, List.length_app.
      destruct Hs as [_ Hne | d1 d2 -> _ Hne _];
        [destruct m | destruct d1]; simpl; try congruence; lia.
    + intros H. destruct (IH H) as [Hs Hl]. split; [exact Hs | simpl; lia].
Qed.

(** More rounds than the text has characters change nothing. *)
Lemma findall_rounds_stable (zeros : list N) (n1 : nat) :
  forall n2 s, List.length s < n1 -> List.length s < n2 ->
    Number.findall_rounds zeros n1 s = Number.findall_rounds zeros n2 s.
Proof.
  induction n1 as [|n1 IH]; intros n2 s H1 H2; [lia|].
  destruct n2 as [|n2]; [lia|]. simpl.
  destruct (Number.search zeros s) as [[m rest]|] eqn:E; [|reflexivity].
  destruct (search_shape _ _ _ _ E) as [_ Hl].
  f_equal. apply IH; lia.
Qed.

Lemma findall_rounds_enough (zeros : list N) (n : nat) (s : list N) :
  List.length s < n ->
  Number.findall_rounds zeros n s = Number.findall zeros s.
Proof.
  intros H. unfold Number.findall. apply findall_rounds_stable; lia.
Qed.

(** ** Numeric columns *)

Example findall_rating :
  Number.findall [] (Utf8.decode "Rating: 3.5/5")
    = [Utf8.decode "3.5"; Utf8.decode "5"].
Proof. reflexivity. Qed.

Example findall_points :
  Number.findall [] (Utf8.decode "1.2.3 and .5 and 7.")
    = map Utf8.decode ["1.2"; "3"; "5"; "7."].
Proof. reflexivity. Qed.

(** Digits of other scripts are digits: Arabic-Indic and fullwidth 42, and
    an Arabic-Indic 3 that comes before an ASCII 5. *)
Example arabic_indic_digits :
  numeric_cell (Demo.env 200 Demo.page) "٤٢" = VInt 42 /\
  numeric_cell (Demo.env 200 Demo.page) "４２" = VInt 42 /\
  numeric_cell (Demo.env 200 Demo.page) "price ٣ for 5" = VInt 3 /\
  numeric_cell (Demo.env 200 Demo.page) "٣.٥" =
    VFloat {| Number.mant := 35; Number.scale := 1 |}.
Proof. repeat split; vm_compute; reflexivity. Qed.











(** The limit counts digits, not bytes: 4301 Arabic-Indic digits are kept as
    text, 4300 of them are read. *)
Example long_arabic_indic_integer :
  numeric_cell (Demo.env 200 Demo.page) (Str.times 4301 "٤") =
    VStr (Str.times 4301 "٤") /\
  numeric_cell (Demo.env 200 Demo.page) (Str.times 4300 "٤") <>
    VStr (Str.times 4300 "٤").
Proof. split; vm_compute; [reflexivity | discriminate]. Qed.

(** ** Selector resolution *)

Lemma strategy2_parts_events (env : Env) (soup : Soup) (tg : string)
  (parts : list string) :
  forall elements st, exists evs,
    events (snd (strategy2_parts env soup tg parts elements st))
      = (events st ++ evs)%list /\
    Forall is_partial_call evs.
Proof.
  induction parts as [|part rest IH]; intros elements st; simpl.
  - exists []. rewrite app_nil_r. auto.
  - destruct (nonempty part); [|apply IH].
    unfold bind, emit, lift; simpl.
    destruct (re_compile env part) as [re|msg]; simpl.
    + match goal with |- context [strategy2_parts _ _ _ _ ?e ?s] =>
        destruct (IH e s) as (evs & Hev & Hall) end.
      simpl in Hev. exists (FindAllPartial tg part :: evs). split.
      * rewrite Hev, <- app_assoc. reflexivity.
      * constructor; [now exists tg, part | exact Hall].
    + exists [FindAllPartial tg part]. split; [reflexivity|].
      constructor; [now exists tg, part | constructor].
Qed.

(** What Strategy 2 finds does not depend on the trace so far. *)
Lemma strategy2_parts_result (env : Env) (soup : Soup) (tg : string)
  (parts : list string) :
  forall elements st st',
    fst (strategy2_parts env soup tg parts elements st)
      = fst (strategy2_parts env soup tg parts elements st').
Proof.
  induction parts as [|part rest IH]; intros elements st st'; simpl.
  - reflexivity.
  - destruct (nonempty part); [|apply IH].
    unfold bind, emit, lift; simpl.
    destruct (re_compile env part) as [re|msg]; simpl; [apply IH | reflexivity].
Qed.

Lemma strategy2_result (env : Env) (soup : Soup) (col : Column)
  (css_class : string) (elements : list Element) (st st' : State) :
  fst (strategy2 env soup col css_class elements st)
    = fst (strategy2 env soup col css_class elements st').
Proof.
  unfold strategy2.
  destruct (is_nil elements && Str.contains "." css_class); [|reflexivity].
  unfold bind.
  pose proof (strategy2_parts_result env soup (tag col)
                (Str.split_on "." css_class) elements st st') as H.
  destruct (strategy2_parts env soup (tag col) _ elements st) as [[e|m] s1];
  destruct (strategy2_parts env soup (tag col) _ elements st') as [[e'|m'] s2];
    simpl in H; try discriminate; inversion H; subst; reflexivity.
Qed.

Lemma strategy2_events (env : Env) (soup : Soup) (col : Column)
  (css_class : string) (elements : list Element) (st : State) :
  exists evs,
    events (snd (strategy2 env soup col css_class elements st))
      = (events st ++ evs)%list /\
    Forall is_partial_call evs /\
    (evs <> [] -> elements = [] /\ Str.contains "." css_class = true).
Proof.
  unfold strategy2.
  destruct (is_nil elements && Str.contains "." css_class) eqn:C.
  - apply andb_true_iff in C as [Hn Hc].
    assert (elements = []) by (destruct elements; [reflexivity | discriminate]).
    destruct (strategy2_parts_events env soup (tag col)
                (Str.split_on "." css_class) elements st) as (evs & Hev & Hall).
    exists evs. unfold bind.
    destruct (strategy2_parts env soup (tag col) _ elements st) as [[e|m] s1];
      simpl in *; auto.
  - exists []. simpl. rewrite app_nil_r. repeat split; auto. congruence.
Qed.

Lemma strategy3_events (env : Env) (soup : Soup) (col : Column)
  (css_class : string) (elements : list Element) (st : State) :
  exists evs,
    events (snd (strategy3 env soup col css_class elements st))
      = (events st ++ evs)%list /\
    (evs = [] \/ evs = [SelectCss (css_selector col css_class)]) /\
    (evs <> [] -> elements = []).
Proof.
  unfold strategy3. destruct elements as [|e els]; simpl.
  - exists [SelectCss (css_selector col css_class)].
    unfold try_except, bind, emit, lift, debug, ret; simpl.
    destruct (soup_select env soup (css_selector col css_class)); simpl; auto.
  - exists []. rewrite app_nil_r. repeat split; auto. congruence.
Qed.

Lemma strategy1_run (soup : Soup) (col : Column) (css_class : string) (st : State) :
  fst (strategy1 soup col css_class st) = Ok (exact_matches soup col css_class) /\
  events (snd (strategy1 soup col css_class st))
    = (events st ++ [FindAllExact (tag col) css_class])%list.
Proof. split; reflexivity. Qed.

Lemma strategy2_keeps (env : Env) (soup : Soup) (col : Column)
  (css_class : string) (elements : list Element) (st : State) :
  elements <> [] ->
  strategy2 env soup col css_class elements st = (Ok elements, st).
Proof. destruct elements; [congruence | reflexivity]. Qed.

(** The events of one column: the exact lookup, then the lookups of
    Strategy 2, then at most the selector of Strategy 3. *)
Lemma resolve_events (env : Env) (soup : Soup) (col : Column)
  (css_class : string) (st : State) :
  exists evs2 evs3,
    events (snd (resolve env soup col css_class st))
      = (events st ++ FindAllExact (tag col) css_class :: evs2 ++ evs3)%list /\
    Forall is_partial_call evs2 /\
    (evs3 = [] \/ evs3 = [SelectCss (css_selector col css_class)]) /\
    (evs2 <> [] ->
       exact_matches soup col css_class = [] /\ Str.contains "." css_class = true) /\
    (evs3 <> [] ->
       forall st0,
         fst ((elements <- strategy1 soup col css_class ;;
               strategy2 env soup col css_class elements) st0) = Ok []).
Proof.
  unfold resolve. unfold bind at 1 2.
  destruct (strategy1_run soup col css_class st) as [R1 E1].
  destruct (strategy1 soup col css_class st) as [r1 st1].
  simpl in R1, E1. subst r1.
  destruct (strategy2_events env soup col css_class
              (exact_matches soup col css_class) st1) as (evs2 & E2 & A2 & C2).
  destruct (strategy2 env soup col css_class
              (exact_matches soup col css_class) st1) as [[e2|msg] st2] eqn:R2;
    simpl in E2.
  - destruct (strategy3_events env soup col css_class e2 st2)
      as (evs3 & E3 & S3 & C3).
    exists evs2, evs3. rewrite E3, E2, E1, <- !app_assoc. simpl.
    split; [reflexivity|]. split; [exact A2|]. split; [exact S3|].
    split; [exact C2|].
    intros Hne st0. specialize (C3 Hne). subst e2.
    unfold bind.
    destruct (strategy1_run soup col css_class st0) as [R1' _].
    destruct (strategy1 soup col css_class st0) as [r1' st1'].
    simpl in R1'. subst r1'.
    rewrite (strategy2_result env soup col css_class _ st1' st1), R2.
    reflexivity.
  - exists evs2, []. simpl. rewrite E2, E1, app_nil_r, <- !app_assoc. simpl.
    split; [reflexivity|]. split; [exact A2|]. split; [now left|].
    split; [exact C2 | congruence].
Qed.

Lemma resolve_unfold (env : Env) (soup : Soup) (col : Column)
  (css_class : string) (st : State) :
  resolve env soup col css_class st =
    match strategy2 env soup col css_class (exact_matches soup col css_class)
            (snd (strategy1 soup col css_class st)) with
    | (Ok e2, st2) => strategy3 env soup col css_class e2 st2
    | (Raise msg, st2) => (Raise msg, st2)
    end.
Proof. reflexivity. Qed.

Lemma resolve_exact (env : Env) (soup : Soup) (col : Column)
  (css_class : string) (st : State) :
  exact_matches soup col css_class <> [] ->
  fst (resolve env soup col css_class st) = Ok (exact_matches soup col css_class) /\
  events (snd (resolve env soup col css_class st))
    = (events st ++ [FindAllExact (tag col) css_class])%list.
Proof.
  intros Hne. rewrite resolve_unfold.
  rewrite (strategy2_keeps env soup col css_class _ _ Hne).
  unfold strategy3.
  destruct (exact_matches soup col css_class); [congruence|].
  split; reflexivity.
Qed.

(** After the elements are resolved, a column makes no further call. *)
Lemma process_column_events (env : Env) (url : string) (soup : Soup)
  (col : Column) (css_class : string) (data : Dict) (errors : list string)
  (st : State) :
  nonempty css_class = true -> nonempty (name col) = true ->
  exists st0,
    events st0 = events st /\
    events (snd (process_column env url soup col css_class data errors st))
      = events (snd (resolve env soup col css_class st0)).
Proof.
  intros Hc Hn. unfold process_column. rewrite Hc, Hn. simpl.
  unfold bind at 1. simpl.
  match goal with |- context [bind (resolve _ _ _ _) _ ?s] => exists s end.
  split; [reflexivity|].
  unfold bind at 1.
  destruct (resolve env soup col css_class _) as [[els|msg] st1]; [|reflexivity].
  destruct (extract_elements env url col els data errors) as [d' e'].
  unfold bind, lift, debug, ret.
  destruct (PyDict.len_at (name col) d'); reflexivity.
Qed.

(** C3: for a column that is not skipped, the calls made on the document are
    the exact lookup of Strategy 1, then the lookups of Strategy 2, then at
    most the selector of Strategy 3.  When Strategy 1 finds an element no
    other call is made; a lookup of Strategy 2 is made only when Strategy 1
    found nothing and the selector contains a point; the selector of
    Strategy 3 is tried only when Strategies 1 and 2 together found
    nothing. *)
Theorem strategies_short_circuit (env : Env) (url : string) (soup : Soup)
  (col : Column) (css_class : string) (data : Dict) (errors : list string)
  (st : State) :
  nonempty css_class = true -> nonempty (name col) = true ->
  exists evs2 evs3,
    events (snd (process_column env url soup col css_class data errors st))
      = (events st ++ FindAllExact (tag col) css_class :: evs2 ++ evs3)%list /\
    Forall is_partial_call evs2 /\
    (evs3 = [] \/ evs3 = [SelectCss (css_selector col css_class)]) /\
    (exact_matches soup col css_class <> [] -> evs2 = [] /\ evs3 = []) /\
    (evs2 <> [] ->
       exact_matches soup col css_class = [] /\ Str.contains "." css_class = true) /\
    (evs3 <> [] ->
       exact_matches soup col css_class = [] /\
       forall st0,
         fst ((elements <- strategy1 soup col css_class ;;
               strategy2 env soup col css_class elements) st0) = Ok []).
Proof.
  intros Hc Hn.
  destruct (process_column_events env url soup col css_class data errors st Hc Hn)
    as (st0 & E0 & ->).
  destruct (resolve_events env soup col css_class st0)
    as (evs2 & evs3 & E & A2 & S3 & C2 & C3).
  exists evs2, evs3. rewrite E, E0.
  assert (Hexact : exact_matches soup col css_class <> [] ->
                   evs2 = [] /\ evs3 = []).
  { intros Hne.
    destruct (resolve_exact env soup col css_class st0 Hne) as [_ E'].
    rewrite E' in E. apply app_inv_head in E.
    inversion E as [E2]. symmetry in E2.
    now apply app_eq_nil in E2. }
  split; [reflexivity|]. split; [exact A2|]. split; [exact S3|].
  split; [exact Hexact|]. split; [exact C2|].
  intros Hne. split; [|exact (C3 Hne)].
  destruct (exact_matches soup col css_class) eqn:Ex; [reflexivity|].
  destruct Hexact as [_ H3]; congruence.
Qed.

Lemma strategies_short_circuit_witness :
  events (snd (process_column (Demo.env 200 Demo.page) "http://x" Demo.page
                 (Demo.col "A" "div") "card" [("A", [])] [] init))
    = [FindAllExact "div" "card"].
Proof.
  destruct (strategies_short_circuit (Demo.env 200 Demo.page) "http://x"
              Demo.page (Demo.col "A" "div") "card" [("A", [])] [] init
              eq_refl eq_refl)
    as (evs2 & evs3 & E & _ & _ & Hexact & _).
  destruct Hexact as [H2 H3]; [vm_compute; discriminate|].
  rewrite H2, H3 in E. exact E.
Defined.

(** ** Table assembly *)

Lemma fold_longest (vs : list (list Cell)) :
  forall m0,
    let r := fold_left longest vs m0 in
    m0 <= r /\
    (forall v, In v vs -> List.length v <= r) /\
    (r = m0 \/ exists v, In v vs /\ List.length v = r).
Proof.
  induction vs as [|v vs IH]; intros m0; simpl.
  - repeat split; auto. intros v [].
  - destruct (IH (longest m0 v)) as (H1 & H2 & H3).
    assert (Hl : m0 <= longest m0 v /\ List.length v <= longest m0 v /\
                 (longest m0 v = m0 \/ longest m0 v = List.length v)).
    { unfold longest. destruct (Nat.ltb_spec m0 (List.length v)); lia. }
    destruct Hl as (La & Lb & Lc).
    split; [lia|]. split.
    + intros w [<- | Hw]; [lia | now apply H2].
    + destruct H3 as [H3 | (w & Hw & Hlen)].
      * destruct Lc as [Lc | Lc]; [left; congruence|].
        right. exists v. split; [now left | congruence].
      * right. exists w. split; [now right | exact Hlen].
Qed.

Lemma max_length_bounds (data : Dict) :
  (forall v, In v (PyDict.values data) -> List.length v <= max_length data) /\
  (max_length data = 0 \/
   exists v, In v (PyDict.values data) /\ List.length v = max_length data).
Proof.
  destruct (fold_longest (PyDict.values data) 0) as (_ & H2 & H3).
  split; [exact H2 | exact H3].
Qed.

Lemma no_data_false (data : Dict) :
  no_data data = false <-> exists v, In v (PyDict.values data) /\ v <> [].
Proof.
  unfold no_data. split.
  - intros H. apply orb_false_iff in H as [H _].
    apply negb_false_iff, existsb_exists in H as (v & Hin & Hv).
    exists v. split; [exact Hin|]. destruct v; [discriminate | congruence].
  - intros (v & Hin & Hv). apply orb_false_iff. split.
    + apply negb_false_iff, existsb_exists. exists v. split; [exact Hin|].
      destruct v; [congruence | reflexivity].
    + destruct (forallb _ _) eqn:F; [|reflexivity].
      rewrite forallb_forall in F. specialize (F v Hin).
      destruct v; [congruence | discriminate].
Qed.

Lemma max_length_positive (data : Dict) :
  no_data data = false -> 0 < max_length data.
Proof.
  intros H. apply no_data_false in H as (v & Hin & Hv).
  destruct (max_length_bounds data) as [Hle _]. specialize (Hle v Hin).
  destruct v; [congruence | simpl in Hle; lia].
Qed.

Lemma pad_column_app (max_len : nat) (v : list Cell) :
  pad_column max_len v = (v ++ repeat VNone (max_len - List.length v))%list.
Proof.
  unfold pad_column. destruct (Nat.ltb_spec (List.length v) max_len); [reflexivity|].
  replace (max_len - List.length v) with 0 by lia. simpl. now rewrite app_nil_r.
Qed.

Lemma pad_column_length (max_len : nat) (v : list Cell) :
  List.length v <= max_len -> List.length (pad_column max_len v) = max_len.
Proof.
  intros H. rewrite pad_column_app, List.length_app, repeat_length. lia.
Qed.

Lemma pad_keys (max_len : nat) (data : Dict) :
  PyDict.keys (pad max_len data) = PyDict.keys data.
Proof.
  unfold pad, PyDict.keys. rewrite map_map. reflexivity.
Qed.

Lemma pad_lengths (data : Dict) :
  Forall (fun kv => List.length (snd kv) = max_length data)
    (pad (max_length data) data).
Proof.
  destruct (max_length_bounds data) as [Hle _].
  unfold pad. apply Forall_forall. intros kv Hin.
  apply in_map_iff in Hin as (kv' & <- & Hin'). simpl.
  apply pad_column_length, Hle.
  unfold PyDict.values. apply in_map_iff. now exists kv'.
Qed.

Lemma same_lengths_of_all (n : nat) (data : Dict) :
  Forall (fun kv => List.length (snd kv) = n) data -> same_lengths data = true.
Proof.
  unfold same_lengths, PyDict.values. intros H.
  destruct data as [|[k v] rest]; [reflexivity|]. simpl.
  inversion H as [|? ? Hv Hrest]; subst. simpl in *.
  apply forallb_forall. intros w Hw.
  apply in_map_iff in Hw as (kv & <- & Hin).
  rewrite Forall_forall in Hrest. rewrite (Hrest kv Hin).
  apply Nat.eqb_refl.
Qed.

(** Past the no-data test the assembler always hands back the padded table. *)
Lemma assemble_table (data : Dict) (errors : list string) (st : State) :
  no_data data = false ->
  assemble data errors st = (Ok (Some (pad (max_length data) data), errors), st).
Proof.
  intros H. unfold assemble. rewrite H.
  pose proof (max_length_positive data H) as Hpos.
  destruct (Nat.eqb_spec (max_length data) 0) as [E|_]; [lia|].
  unfold DataFrame.
  rewrite (same_lengths_of_all (max_length data) _ (pad_lengths data)).
  reflexivity.
Qed.

(** C4: when some column is not empty, the assembler returns a table in
    which every column is the extracted column followed by None up to
    [max_length], the length of a longest column; nothing is cut off.
    Columns of lengths 5, 3 and 5 give a table of length 5 whose second
    column ends in two None. *)
Theorem padding_to_max_length (data : Dict) (errors : list string) (st : State) :
  (exists v, In v (PyDict.values data) /\ v <> []) ->
  exists table,
    assemble data errors st = (Ok (Some table, errors), st) /\
    table = map (fun kv =>
                   (fst kv,
                    (snd kv ++ repeat VNone
                                 (max_length data - List.length (snd kv)))%list))
              data /\
    Forall (fun kv => List.length (snd kv) = max_length data) table /\
    (forall v, In v (PyDict.values data) -> List.length v <= max_length data) /\
    (exists v, In v (PyDict.values data) /\ List.length v = max_length data).
Proof.
  intros H. apply no_data_false in H.
  exists (pad (max_length data) data).
  split; [now apply assemble_table|].
  split.
  { unfold pad. apply map_ext. intros kv. now rewrite pad_column_app. }
  split; [apply pad_lengths|].
  destruct (max_length_bounds data) as [Hle [Hz | Hex]].
  - pose proof (max_length_positive data H). lia.
  - split; [exact Hle | exact Hex].
Qed.

Lemma padding_to_max_length_witness :
  assemble Demo.ragged [] init =
    (Ok (Some [ ("a", Demo.cells 5);
                ("b", (Demo.cells 3 ++ [VNone; VNone])%list);
                ("c", Demo.cells 5) ], []), init).
Proof.
  destruct (padding_to_max_length Demo.ragged [] init) as (table & E & Ht & _).
  - exists (Demo.cells 5). split; [left; reflexivity | discriminate].
  - rewrite Ht in E. exact E.
Defined.

(** ** The dict of columns keeps its keys *)

Lemma set_keys (k : string) (v : list Cell) (d : Dict) :
  PyDict.keys (PyDict.set k v d) =
    if existsb (String.eqb k) (PyDict.keys d) then PyDict.keys d
    else (PyDict.keys d ++ [k])%list.
Proof.
  induction d as [|[k' v'] rest IH]; simpl; [reflexivity|].
  rewrite (String.eqb_sym k k').
  destruct (String.eqb_spec k' k) as [->|Hn]; simpl; [reflexivity|].
  fold (PyDict.keys rest). rewrite IH.
  now destruct (existsb (String.eqb k) (PyDict.keys rest)).
Qed.

Lemma get_some_key (k : string) (d : Dict) (v : list Cell) :
  PyDict.get k d = Some v -> existsb (String.eqb k) (PyDict.keys d) = true.
Proof.
  induction d as [|[k' v'] rest IH]; simpl; [discriminate|].
  rewrite (String.eqb_sym k k').
  destruct (String.eqb k' k); [reflexivity | exact IH].
Qed.

Lemma append_keys (k : string) (x : Cell) (d d' : Dict) :
  PyDict.append k x d = Ok d' -> PyDict.keys d' = PyDict.keys d.
Proof.
  unfold PyDict.append. destruct (PyDict.get k d) as [v|] eqn:G; [|discriminate].
  intros H; inversion H; subst.
  now rewrite set_keys, (get_some_key _ _ _ G).
Qed.

Lemma extract_element_keys (env : Env) (url : string) (col : Column)
  (data data' : Dict) (element : Element) :
  extract_element env url col data element = Ok data' ->
  PyDict.keys data' = PyDict.keys data.
Proof.
  unfold extract_element.
  destruct (is_link col).
  - destruct (el_href element) as [href|]; [|apply append_keys].
    destruct (nonempty href); [|apply append_keys].
    destruct (urljoin env url href); [apply append_keys | discriminate].
  - destruct (as_numeric col); apply append_keys.
Qed.

Lemma extract_elements_inv (env : Env) (url : string) (col : Column)
  (elements : list Element) :
  forall data errors,
    PyDict.keys (fst (extract_elements env url col elements data errors))
      = PyDict.keys data /\
    (Forall (fun e => is_extraction_error e = true) errors ->
     Forall (fun e => is_extraction_error e = true)
       (snd (extract_elements env url col elements data errors))).
Proof.
  induction elements as [|e rest IH]; intros data errors; simpl; [auto|].
  destruct (extract_element env url col data e) as [data'|msg] eqn:E.
  - destruct (IH data' errors) as [Hk Hf].
    split; [|exact Hf]. rewrite Hk. now apply extract_element_keys in E.
  - destruct (IH data
                (List.app errors
                   ["Error extracting from " ++ name col ++ ": " ++ msg]))
      as [Hk Hf].
    split; [exact Hk|]. intros Hall. apply Hf.
    apply Forall_app. split; [exact Hall|].
    constructor; [|constructor].
    unfold is_extraction_error. simpl.
    now destruct (name col ++ String ":" (String " " msg)).
Qed.

Lemma process_column_inv (env : Env) (url : string) (soup : Soup)
  (col : Column) (css_class : string) (data : Dict) (errors : list string)
  (st : State) :
  match process_column env url soup col css_class data errors st with
  | (Ok (data', errors'), _) =>
      PyDict.keys data' = PyDict.keys data /\
      (Forall (fun e => is_extraction_error e = true) errors ->
       Forall (fun e => is_extraction_error e = true) errors')
  | (Raise _, _) => True
  end.
Proof.
  unfold process_column.
  destruct (negb (nonempty css_class) || negb (nonempty (name col)));
    [simpl; auto|].
  unfold bind at 1. simpl. unfold bind at 1.
  destruct (resolve env soup col css_class _) as [[els|msg] st1]; [|exact I].
  pose proof (extract_elements_inv env url col els data errors) as Hinv.
  destruct (extract_elements env url col els data errors) as [d' e'].
  unfold bind, lift, debug, ret.
  destruct (PyDict.len_at (name col) d'); [exact Hinv | exact I].
Qed.

Lemma process_columns_inv (env : Env) (url : string) (soup : Soup)
  (pairs : list (Column * string)) :
  forall data errors st,
    match process_columns env url soup pairs data errors st with
    | (Ok (data', errors'), _) =>
        PyDict.keys data' = PyDict.keys data /\
        (Forall (fun e => is_extraction_error e = true) errors ->
         Forall (fun e => is_extraction_error e = true) errors')
    | (Raise _, _) => True
    end.
Proof.
  induction pairs as [|[col css_class] rest IH]; intros data errors st; simpl.
  - auto.
  - unfold bind.
    pose proof (process_column_inv env url soup col css_class data errors st) as H1.
    destruct (process_column env url soup col css_class data errors st)
      as [[[d1 e1]|msg] st1]; [|exact I].
    simpl. specialize (IH d1 e1 st1).
    destruct (process_columns env url soup rest d1 e1 st1)
      as [[[d2 e2]|msg] st2]; [|exact I].
    destruct H1 as [K1 F1]. destruct IH as [K2 F2].
    split; [congruence | auto].
Qed.

(** ** The whole scrape *)

Lemma assemble_cases (data : Dict) (errors : list string) (st : State) :
  assemble data errors st =
    if no_data data
    then (Ok (None, ["No data found with the specified selectors"]), st)
    else (Ok (Some (pad (max_length data) data), errors), st).
Proof.
  destruct (no_data data) eqn:H; [|now apply assemble_table].
  unfold assemble. now rewrite H.
Qed.

Lemma scrape_soup_cases (env : Env) (url : string) (soup : Soup)
  (columns : list Column) (css_classes : list string) (st : State) :
  match scrape_soup env url soup columns css_classes st with
  | (Ok (Some table, errors), _) =>
      PyDict.keys table = PyDict.keys (init_data columns) /\
      Forall (fun e => is_extraction_error e = true) errors
  | (Ok (None, errors), _) =>
      errors = ["No data found with the specified selectors"]
  | (Raise _, _) => True
  end.
Proof.
  unfold scrape_soup. unfold bind at 1.
  destruct (log_page_content env soup url st) as [[[]|msg] st1]; [|exact I].
  unfold bind at 1.
  destruct (save_page env soup st1) as [[[]|msg] st2]; [|exact I].
  unfold bind at 1.
  pose proof (process_columns_inv env url soup (combine columns css_classes)
                (init_data columns) [] st2) as Hinv.
  destruct (process_columns env url soup _ (init_data columns) [] st2)
    as [[[d e]|msg] st3]; [|exact I].
  simpl. rewrite assemble_cases.
  destruct (no_data d); [reflexivity|].
  destruct Hinv as [Hk Hf]. split.
  - now rewrite pad_keys.
  - apply Hf. constructor.
Qed.

(** The three ways scrape_with_requests can go after the request. *)
Lemma scrape_with_requests_cases (env : Env) (url : string)
  (columns : list Column) (css_classes : list string) :
  match requests_get env url (timeout env) with
  | Raise msg =>
      scrape_with_requests env url columns css_classes
        = (None, ["Critical error: " ++ msg], [])
  | Ok response =>
      if Z.eqb (status_code response) 200
      then scrape_with_requests env url columns css_classes
             = settle (scrape_soup env url (html_parser env (content response))
                         columns css_classes (after_fetch response))
      else scrape_with_requests env url columns css_classes
             = (None, ["HTTP Error: " ++ Str.of_Z (status_code response)],
                debug_info (after_fetch response))
  end.
Proof.
  unfold scrape_with_requests, run_requests, scrape_with_requests_body.
  unfold bind at 1. unfold lift.
  destruct (requests_get env url (timeout env)) as [response|msg]; [|reflexivity].
  unfold bind, debug.
  destruct (Z.eqb (status_code response) 200); reflexivity.
Qed.

Lemma critical_error_is_not (msg line : string) :
  String.prefix "Critical" line = false -> "Critical error: " ++ msg <> line.
Proof.
  intros H E. subst line. simpl in H.
  now destruct (msg) in H.
Qed.

(** The errors of an extraction are lines of the element handler, the
    no-data line, or a critical error. *)
Lemma scrape_soup_errors (env : Env) (url : string) (soup : Soup)
  (columns : list Column) (css_classes : list string) (st : State)
  (line : string) :
  is_extraction_error line = false ->
  String.prefix "Critical" line = false ->
  line <> "No data found with the specified selectors" ->
  ~ In line
      (outcome_errors (settle (scrape_soup env url soup columns css_classes st))).
Proof.
  intros He Hc Hne.
  pose proof (scrape_soup_cases env url soup columns css_classes st) as S.
  destruct (scrape_soup env url soup columns css_classes st)
    as [[[[table|] errors]|msg] st']; unfold outcome_errors; simpl.
  - destruct S as [_ Hall]. intros Hin. rewrite Forall_forall in Hall.
    specialize (Hall line Hin). congruence.
  - subst errors. intros [H|[]]. congruence.
  - intros [H|[]]. now apply (critical_error_is_not msg line Hc).
Qed.

(** ** Column names *)

Lemma init_data_keys_from (columns : list Column) :
  forall d,
    PyDict.keys
      (fold_left
         (fun d col => if nonempty (name col) then PyDict.set (name col) [] d else d)
         columns d)
    = fold_left
        (fun acc k => if existsb (String.eqb k) acc then acc else (acc ++ [k])%list)
        (filter nonempty (map name columns)) (PyDict.keys d).
Proof.
  induction columns as [|col rest IH]; intros d; simpl; [reflexivity|].
  rewrite IH. destruct (nonempty (name col)); simpl; [|reflexivity].
  now rewrite set_keys.
Qed.

Lemma init_data_keys (columns : list Column) :
  PyDict.keys (init_data columns)
    = first_occurrences (filter nonempty (map name columns)).
Proof. apply (init_data_keys_from columns []). Qed.

Lemma existsb_eqb_in (k : string) (acc : list string) :
  existsb (String.eqb k) acc = true <-> In k acc.
Proof.
  rewrite existsb_exists. split.
  - intros (x & Hin & Heq). apply String.eqb_eq in Heq. now subst.
  - intros H. exists k. split; [exact H | apply String.eqb_refl].
Qed.

Lemma first_occurrences_from (ks : list string) :
  forall acc, NoDup acc ->
    let r := fold_left
               (fun acc k => if existsb (String.eqb k) acc then acc
                             else (acc ++ [k])%list) ks acc in
    NoDup r /\ (forall k, In k r <-> In k acc \/ In k ks).
Proof.
  induction ks as [|k ks IH]; intros acc Hnd; simpl.
  - split; [exact Hnd | intros; tauto].
  - destruct (existsb (String.eqb k) acc) eqn:E.
    + apply existsb_eqb_in in E.
      destruct (IH acc Hnd) as [H1 H2]. split; [exact H1|].
      intros x. rewrite H2. split; [tauto|].
      intros [H | [<- | H]]; auto.
    + assert (Hk : ~ In k acc).
      { intros H. apply existsb_eqb_in in H. congruence. }
      assert (Hnd' : NoDup (acc ++ [k])).
      { apply NoDup_app; [exact Hnd | repeat constructor; intros [] | ].
        intros x Hx [<- | []]. contradiction. }
      destruct (IH (acc ++ [k])%list Hnd') as [H1 H2]. split; [exact H1|].
      intros x. rewrite H2, in_app_iff. simpl. tauto.
Qed.

Lemma first_occurrences_nodup (ks : list string) :
  forall acc, NoDup (acc ++ ks) ->
    fold_left
      (fun acc k => if existsb (String.eqb k) acc then acc else (acc ++ [k])%list)
      ks acc = (acc ++ ks)%list.
Proof.
  induction ks as [|k ks IH]; intros acc Hnd; simpl.
  - now rewrite app_nil_r.
  - assert (Hk : existsb (String.eqb k) acc = false).
    { destruct (existsb (String.eqb k) acc) eqn:E; [|reflexivity].
      apply existsb_eqb_in in E. apply NoDup_remove_2 in Hnd.
      exfalso. apply Hnd. apply in_app_iff. now left. }
    rewrite Hk, IH; rewrite <- app_assoc; [reflexivity | exact Hnd].
Qed.

Lemma nonempty_true (s : string) : nonempty s = true <-> s <> "".
Proof.
  unfold nonempty. destruct (String.eqb_spec s ""); simpl; split; congruence.
Qed.

(** A scrape that returns a table went through the extraction on a parsed
    document. *)
Lemma table_from_scrape_soup (env : Env) (url : string)
  (columns : list Column) (css_classes : list string)
  (table : Table) (errors dbg : list string) :
  scrape_with_requests env url columns css_classes = (Some table, errors, dbg) ->
  PyDict.keys table = PyDict.keys (init_data columns).
Proof.
  intros H.
  pose proof (scrape_with_requests_cases env url columns css_classes) as C.
  destruct (requests_get env url (timeout env)) as [response|msg];
    [|rewrite C in H; discriminate].
  destruct (Z.eqb (status_code response) 200); [|rewrite C in H; discriminate].
  rewrite C in H. clear C.
  pose proof (scrape_soup_cases env url (html_parser env (content response))
                columns css_classes (after_fetch response)) as S.
  destruct (scrape_soup env url _ columns css_classes (after_fetch response))
    as [[[[t|] e]|msg] st]; simpl in H; try discriminate.
  inversion H; subst. apply S.
Qed.

(** C1 (as the code has it): the table has one column for every distinct
    non-empty name among the specs, in the order in which the names first
    occur; a spec with an empty name gives no column.  A spec whose name or
    selector is empty is passed over by the extractor, which looks nothing
    up and appends nothing for it, but an empty selector does not remove the
    column of a non-empty name. *)
Theorem table_columns_by_name (env : Env) (url : string)
  (columns : list Column) (css_classes : list string)
  (table : Table) (errors dbg : list string) :
  scrape_with_requests env url columns css_classes = (Some table, errors, dbg) ->
  PyDict.keys table = first_occurrences (filter nonempty (map name columns)) /\
  NoDup (PyDict.keys table) /\
  (forall k, In k (PyDict.keys table) <->
             k <> "" /\ exists col, In col columns /\ name col = k) /\
  (NoDup (map name columns) ->
   PyDict.keys table = filter nonempty (map name columns)) /\
  (forall soup col css_class data errs st,
      name col = "" \/ css_class = "" ->
      process_column env url soup col css_class data errs st
        = (Ok (data, errs), st)).
Proof.
  intros H. apply table_from_scrape_soup in H.
  rewrite init_data_keys in H.
  destruct (first_occurrences_from (filter nonempty (map name columns)) []
              (NoDup_nil _)) as [Hnd Hin].
  fold (first_occurrences (filter nonempty (map name columns))) in Hnd, Hin.
  rewrite H. split; [reflexivity|]. split; [exact Hnd|]. split; [|split].
  - intros k. rewrite Hin, filter_In, in_map_iff, nonempty_true. simpl.
    split.
    + intros [[] | [(col & Hc & Hcol) Hk]]. split; [exact Hk|]. now exists col.
    + intros [Hk (col & Hcol & Hc)]. right. split; [now exists col | exact Hk].
  - intros Hnames. unfold first_occurrences.
    apply (first_occurrences_nodup _ []). simpl. now apply NoDup_filter.
  - intros soup col css_class data errs st Hskip. unfold process_column.
    destruct Hskip as [-> | ->]; simpl; [|reflexivity].
    now rewrite orb_true_r.
Qed.

Lemma table_columns_by_name_witness :
  exists table,
    outcome_table
      (scrape_with_requests (Demo.env 200 Demo.page) "http://x"
         [Demo.col "A" "div"; Demo.col "B" "div"] ["card"; ""]) = Some table /\
    PyDict.keys table = ["A"; "B"].
Proof.
  exists [("A", [VStr "Ada"]); ("B", [VNone])].
  split; [reflexivity|].
  destruct (table_columns_by_name (Demo.env 200 Demo.page) "http://x"
              [Demo.col "A" "div"; Demo.col "B" "div"] ["card"; ""]
              [("A", [VStr "Ada"]); ("B", [VNone])] []
              [ "HTTP Status: 200"; "Content Length: 13 bytes";
                "Looking for: div.card"; "  Strategy 1 (exact class): 1 elements";
                "  Final count for A: 1" ] eq_refl) as [H _].
  rewrite H. reflexivity.
Defined.

(** C1 as worded fails: the second spec has an empty selector, and the table
    still has a column for it, filled with None; the claim allows one column
    only. *)
Lemma empty_selector_keeps_its_column :
  outcome_table
    (scrape_with_requests (Demo.env 200 Demo.page) "http://x"
       [Demo.col "A" "div"; Demo.col "B" "div"] ["card"; ""])
    = Some [("A", [VStr "Ada"]); ("B", [VNone])] /\
  Claimed.column_names [Demo.col "A" "div"; Demo.col "B" "div"] ["card"; ""]
    = ["A"].
Proof. split; reflexivity. Qed.

(** ** The status gate *)




(** ** No data *)

(** C9: past the test for empty data some column is not empty, so
    [max_length] is positive and the assembler returns the table; when the
    assembler returns no table its error is "No data found with the specified
    selectors"; and "No data extracted" is in the errors of no scrape. *)
Theorem no_data_extracted_unreachable (env : Env) (url : string)
  (columns : list Column) (css_classes : list string)
  (data : Dict) (errors : list string) (st : State) :
  (no_data data = false ->
   (exists v, In v (PyDict.values data) /\ v <> []) /\
   0 < max_length data /\
   exists table, assemble data errors st = (Ok (Some table, errors), st)) /\
  (forall msgs, fst (assemble data errors st) = Ok (None, msgs) ->
                msgs = ["No data found with the specified selectors"]) /\
  ~ In "No data extracted"
       (outcome_errors (scrape_with_requests env url columns css_classes)).
Proof.
  split; [|split].
  - intros H. split; [now apply no_data_false|].
    split; [now apply max_length_positive|].
    exists (pad (max_length data) data). now apply assemble_table.
  - intros msgs. rewrite assemble_cases.
    destruct (no_data data); simpl; intros H; inversion H; reflexivity.
  - pose proof (scrape_with_requests_cases env url columns css_classes) as C.
    destruct (requests_get env url (timeout env)) as [response|msg].
    + destruct (Z.eqb (status_code response) 200); rewrite C.
      * apply scrape_soup_errors; [reflexivity | reflexivity | discriminate].
      * unfold outcome_errors. simpl. intros [H|[]]. discriminate.
    + rewrite C. unfold outcome_errors. simpl. intros [H|[]]. discriminate.
Qed.

Lemma no_data_extracted_unreachable_witness :
  0 < max_length Demo.ragged /\
  ~ In "No data extracted"
       (outcome_errors
          (scrape_with_requests (Demo.env 200 Demo.page) "http://x"
             [Demo.col "A" "div"] ["nothing"])).
Proof.
  destruct (no_data_extracted_unreachable (Demo.env 200 Demo.page) "http://x"
              [Demo.col "A" "div"] ["nothing"] Demo.ragged [] init)
    as (H1 & _ & H3).
  split; [|exact H3].
  destruct (H1 eq_refl) as (_ & Hpos & _). exact Hpos.
Defined.

(** ** The page inspector *)

Lemma prefix_before_space (w : string) :
  forall a b,
    Str.all_chars (fun c => negb (Ascii.eqb c " ")) w = true ->
    String.prefix w (a ++ String " " b) = true -> String.prefix w a = true.
Proof.
  induction w as [|c w IH]; intros a b Hw Hp.
  - now destruct a.
  - simpl in Hw. apply andb_true_iff in Hw as [Hc Hw].
    destruct a as [|c' a]; simpl in *.
    + destruct (Ascii.ascii_dec c " ") as [->|]; [discriminate Hc | discriminate Hp].
    + destruct (Ascii.ascii_dec c c'); [now apply (IH a b) | discriminate].
Qed.

Lemma contains_across_space (w : string) :
  forall a b,
    Str.all_chars (fun c => negb (Ascii.eqb c " ")) w = true ->
    Str.contains w (a ++ String " " b) = true ->
    Str.contains w a = true \/ Str.contains w b = true.
Proof.
  intros a b Hw. induction a as [|c a IH]; intros H.
  - change ("" ++ String " " b) with (String " "%char b) in H.
    cbn [Str.contains] in H. apply orb_true_iff in H as [H | H]; [|now right].
    left. apply (prefix_before_space w "" b Hw) in H.
    cbn [Str.contains]. now rewrite H.
  - change (String c a ++ String " " b) with (String c (a ++ String " " b)) in H.
    cbn [Str.contains] in H. apply orb_true_iff in H as [H | H].
    + left. apply (prefix_before_space w (String c a) b Hw) in H.
      cbn [Str.contains]. now rewrite H.
    + destruct (IH H) as [Ha | Hb]; [left | now right].
      cbn [Str.contains]. rewrite Ha. apply orb_true_r.
Qed.

(** A word without a space that occurs in the joined class attribute occurs
    in one of its tokens. *)
Lemma contains_in_joined (w : string) (toks : list string) :
  Str.all_chars (fun c => negb (Ascii.eqb c " ")) w = true -> w <> "" ->
  Str.contains w (Str.join " " toks) = true ->
  existsb (Str.contains w) toks = true.
Proof.
  intros Hw Hne. induction toks as [|t rest IH]; intros H.
  - destruct w; [congruence | discriminate].
  - destruct rest as [|t' rest].
    + simpl in *. now rewrite H.
    + change (Str.join " " (t :: t' :: rest))
        with (t ++ String " "%char (Str.join " " (t' :: rest))) in H.
      apply (contains_across_space w _ _ Hw) in H as [H | H].
      * cbn [existsb]. now rewrite H.
      * cbn [existsb] in *. rewrite (IH H). apply orb_true_r.
Qed.

Lemma existsb_orb {A} (p q : A -> bool) (l : list A) :
  existsb (fun x => p x || q x) l = existsb p l || existsb q l.
Proof.
  induction l as [|x l IH]; simpl; [reflexivity|].
  rewrite IH. destruct (p x), (q x), (existsb p l); reflexivity.
Qed.

Lemma class_matches_card (e : Element) :
  Bs4.class_matches card_pattern e = has_card_token e.
Proof.
  unfold Bs4.class_matches, has_card_token.
  destruct (el_class e) as [toks|]; [|reflexivity].
  destruct (card_pattern (Str.join " " toks)) eqn:J; [|apply orb_false_r].
  rewrite orb_true_r. symmetry.
  unfold card_pattern in *.
  rewrite !existsb_orb.
  apply orb_true_iff in J as [J | J]; [apply orb_true_iff in J as [J | J]|];
    apply contains_in_joined in J; try reflexivity; try discriminate;
    rewrite J; rewrite ?orb_true_r; reflexivity.
Qed.

(** C7 (as the code has it): the card-like count is the number of elements
    with a class token in which "card", "item" or "result" occurs as
    written, in lower case; a class "Card" or "RESULT" is not counted, a
    class "card" or "result" is. *)
Theorem card_count_is_case_sensitive (soup : Soup) (url : string) :
  List.length (cards soup) = List.length (filter has_card_token soup) /\
  nth 2 (debug_page_content soup url) ""
    = "Card-like elements found: "
        ++ Str.of_nat (List.length (filter has_card_token soup)) /\
  card_pattern "Card" = false /\ card_pattern "RESULT" = false /\
  card_pattern "card" = true /\ card_pattern "result" = true.
Proof.
  assert (E : cards soup = filter has_card_token soup).
  { unfold cards, Bs4.find_all_attr_class. apply filter_ext.
    exact class_matches_card. }
  split; [now rewrite E|]. split; [|repeat split].
  unfold debug_page_content. cbn [nth]. now rewrite E.
Qed.

(** C7 as worded fails: of the four classed elements of the page two are
    spelled "Card" and "RESULT"; the inspector counts 2, a case-insensitive
    count is 4. *)
Lemma capitalised_classes_not_counted :
  List.length (cards Demo.page) = 2 /\ List.length (Claimed.cards Demo.page) = 4.
Proof. split; reflexivity. Qed.

(** ** Selenium *)

(** C8: in a run in which Chrome was started the last thing done is
    [driver.quit()], in whatever way the [try] block ended, so no session is
    open when scrape_with_selenium returns; and it does return. *)
Theorem browser_always_quit (env : Env) (url : string)
  (columns : list Column) (css_classes : list string) :
  In BrowserStarted (snd (run_selenium env url columns css_classes)) ->
  last (snd (run_selenium env url columns css_classes)) BrowserStarted = BrowserQuit /\
  sessions_open (snd (run_selenium env url columns css_classes)) 0 = 0 /\
  scrape_with_selenium env url columns css_classes <> None.
Proof.
  unfold scrape_with_selenium, run_selenium, scrape_with_selenium_body,
    selenium_try, setup_selenium_driver, selenium_finally,
    scrape_with_requests_logic.
  destruct (SELENIUM_AVAILABLE env); simpl; [|intros []].
  unfold try_finally, try_except, bind, lift, emit, debug, set_driver,
    get_driver, ret; simpl.
  destruct (webdriver_Chrome env (chrome_arguments (headless env))) as [d|m];
    simpl.
  - destruct (driver_get d url) as [[]|m1]; simpl;
      [destruct (driver_title d) as [t|m2]; simpl;
       [destruct (driver_page_source d) as [src|m3]; simpl|]|];
      intros _; repeat split; discriminate.
  - intros [H|[]]. discriminate.
Qed.

Lemma browser_always_quit_witness :
  snd (run_selenium (Demo.env 200 Demo.page) "http://x"
         [Demo.col "A" "div"] ["card"])
    = [BrowserStarted; BrowserGet "http://x"; Sleep 10; BrowserQuit] /\
  sessions_open
    (snd (run_selenium (Demo.env 200 Demo.page) "http://x"
            [Demo.col "A" "div"] ["card"])) 0 = 0.
Proof.
  split; [reflexivity|].
  apply (browser_always_quit (Demo.env 200 Demo.page) "http://x"
           [Demo.col "A" "div"] ["card"]).
  simpl. left. reflexivity.
Defined.

(** C5 (what the code does instead): when Selenium is available and the
    driver starts, loads the page and hands over its source, the call of the
    extraction logic raises NameError, because scrape_with_requests_logic is
    defined nowhere; the function returns no table and the one error
    "Selenium error: name 'scrape_with_requests_logic' is not defined". *)
Theorem selenium_never_extracts (env : Env) (url : string)
  (columns : list Column) (css_classes : list string)
  (drv : Driver) (title page_source : string) :
  SELENIUM_AVAILABLE env = true ->
  webdriver_Chrome env (chrome_arguments (headless env)) = Ok drv ->
  driver_get drv url = Ok tt ->
  driver_title drv = Ok title ->
  driver_page_source drv = Ok page_source ->
  scrape_with_selenium env url columns css_classes =
    Some (None,
          ["Selenium error: name 'scrape_with_requests_logic' is not defined"],
          [ "Chrome driver initialized";
            "Page loaded: " ++ title;
            "Page source length: "
              ++ Str.of_nat (Utf8.len page_source) ++ " characters" ]).
Proof.
  intros Ha Hc Hg Ht Hs.
  unfold scrape_with_selenium, run_selenium, scrape_with_selenium_body,
    selenium_try, setup_selenium_driver, selenium_finally,
    scrape_with_requests_logic.
  rewrite Ha. simpl.
  unfold try_finally, try_except, bind, lift, emit, debug, set_driver,
    get_driver, ret; simpl.
  rewrite Hc. simpl. rewrite Hg, Ht. simpl. rewrite Hs. reflexivity.
Qed.

Lemma selenium_never_extracts_witness :
  scrape_with_selenium (Demo.env 200 Demo.page) "http://x"
    [Demo.col "A" "div"] ["card"] =
    Some (None,
          ["Selenium error: name 'scrape_with_requests_logic' is not defined"],
          [ "Chrome driver initialized"; "Page loaded: Demo";
            "Page source length: 13 characters" ]).
Proof.
  apply (selenium_never_extracts (Demo.env 200 Demo.page) "http://x"
           [Demo.col "A" "div"] ["card"] Demo.browser "Demo" "<html></html>");
    reflexivity.
Defined.

(** The static strategy, on the very page the browser handed over, does
    extract. *)
Example static_logic_extracts :
  outcome_table
    (settle (scrape_soup (Demo.env 200 Demo.page) "http://x" Demo.page
               [Demo.col "A" "div"] ["card"] init))
    = Some [("A", [VStr "Ada"])].
Proof. reflexivity. Qed.

(** * Further properties of the script *)

(** ** Lookup and update of the dict *)

Lemma get_set_same (k : string) (v : list Cell) (d : Dict) :
  PyDict.get k (PyDict.set k v d) = Some v.
Proof.
  induction d as [|[k' v'] rest IH]; simpl.
  - now rewrite String.eqb_refl.
  - destruct (String.eqb k' k) eqn:E; simpl.
    + now rewrite String.eqb_refl.
    + now rewrite E.
Qed.

Lemma get_set_other (k k' : string) (v : list Cell) (d : Dict) :
  k' <> k -> PyDict.get k' (PyDict.set k v d) = PyDict.get k' d.
Proof.
  intros Hne. induction d as [|[k0 v0] rest IH]; simpl.
  - destruct (String.eqb_spec k k'); [congruence | reflexivity].
  - destruct (String.eqb_spec k0 k) as [->|Hn]; simpl.
    + destruct (String.eqb_spec k k'); [congruence | reflexivity].
    + now rewrite IH.
Qed.

Lemma set_set (k : string) (v1 v2 : list Cell) (d : Dict) :
  PyDict.set k v2 (PyDict.set k v1 d) = PyDict.set k v2 d.
Proof.
  induction d as [|[k' v'] rest IH]; simpl.
  - now rewrite String.eqb_refl.
  - destruct (String.eqb k' k) eqn:E; simpl.
    + now rewrite String.eqb_refl.
    + now rewrite E, IH.
Qed.

Lemma set_same (k : string) (v : list Cell) (d : Dict) :
  PyDict.get k d = Some v -> PyDict.set k v d = d.
Proof.
  induction d as [|[k' v'] rest IH]; simpl; [discriminate|].
  destruct (String.eqb_spec k' k) as [->|Hn].
  - intros H; inversion H; reflexivity.
  - intros H. now rewrite IH.
Qed.

(** What one element does to the dict when it does not raise: one cell more
    at the end of its column. *)
Lemma extract_element_ok (env : Env) (url : string) (col : Column)
  (data data' : Dict) (element : Element) :
  extract_element env url col data element = Ok data' ->
  exists v x,
    PyDict.get (name col) data = Some v /\
    data' = PyDict.set (name col) (v ++ [x])%list data.
Proof.
  assert (A : forall x, PyDict.append (name col) x data = Ok data' ->
              exists v x,
                PyDict.get (name col) data = Some v /\
                data' = PyDict.set (name col) (v ++ [x])%list data).
  { intros x. unfold PyDict.append.
    destruct (PyDict.get (name col) data) as [v|]; [|discriminate].
    intros H; inversion H. now exists v, x. }
  unfold extract_element.
  destruct (is_link col).
  - destruct (el_href element) as [href|]; [|apply A].
    destruct (nonempty href); [|apply A].
    destruct (urljoin env url href); [apply A | discriminate].
  - destruct (as_numeric col); apply A.
Qed.

(** ** One column's loop over the matched elements (lines 236-261) *)

Lemma len_of_set (k : string) (v : list Cell) (d : Dict) :
  len_of k (PyDict.set k v d) = List.length v.
Proof. unfold len_of. now rewrite get_set_same. Qed.

Lemma extract_elements_step (env : Env) (url : string) (col : Column)
  (elements : list Element) :
  forall data errors,
  exists new,
    snd (extract_elements env url col elements data errors)
      = (errors ++ new)%list /\
    Forall (fun line =>
              String.prefix ("Error extracting from " ++ name col ++ ": ") line
                = true) new /\
    len_of (name col) (fst (extract_elements env url col elements data errors))
      + List.length new
      = len_of (name col) data + List.length elements /\
    (forall k, k <> name col ->
       PyDict.get k (fst (extract_elements env url col elements data errors))
         = PyDict.get k data).
Proof.
  induction elements as [|e rest IH]; intros data errors;
    cbn [extract_elements].
  - exists []. simpl. rewrite app_nil_r. repeat split; auto.
  - destruct (extract_element env url col data e) as [data'|msg] eqn:E.
    + destruct (extract_element_ok _ _ _ _ _ _ E) as (v & x & G & ->).
      destruct (IH (PyDict.set (name col) (v ++ [x])%list data) errors)
        as (new & He & Hp & Hl & Hf).
      exists new. split; [exact He|]. split; [exact Hp|]. split.
      * rewrite len_of_set, List.length_app in Hl. unfold len_of at 2.
        rewrite G. cbn [List.length] in *. lia.
      * intros k Hk. rewrite (Hf k Hk). now apply get_set_other.
    + destruct (IH data
                  (List.app errors
                     ["Error extracting from " ++ name col ++ ": " ++ msg]))
        as (new & He & Hp & Hl & Hf).
      exists (("Error extracting from " ++ name col ++ ": " ++ msg) :: new).
      split; [rewrite He, <- app_assoc; reflexivity|].
      split; [|split; [cbn [List.length]; lia | exact Hf]].
      constructor; [|exact Hp].
      clear. simpl. induction (name col) as [|c n IHn]; simpl.
      * now destruct msg.
      * destruct (Ascii.ascii_dec c c); [exact IHn | congruence].
Qed.

(** X1: in the loop over the matched elements of a column, every element
    leaves either one cell in that column or one line "Error extracting from
    <name>: ..." in [errors], the lines already there are kept in front, and
    no other column is touched. *)
Theorem every_element_accounted_for (env : Env) (url : string) (col : Column)
  (elements : list Element) (data : Dict) (errors : list string) :
  exists new,
    snd (extract_elements env url col elements data errors)
      = (errors ++ new)%list /\
    Forall (fun line =>
              String.prefix ("Error extracting from " ++ name col ++ ": ") line
                = true) new /\
    len_of (name col) (fst (extract_elements env url col elements data errors))
      + List.length new
      = len_of (name col) data + List.length elements /\
    (forall k, k <> name col ->
       PyDict.get k (fst (extract_elements env url col elements data errors))
         = PyDict.get k data).
Proof. apply extract_elements_step. Qed.

Lemma extract_elements_cells (env : Env) (url : string) (col : Column)
  (cell : Element -> Cell) (elements : list Element) :
  (forall e data, In e elements ->
     extract_element env url col data e = PyDict.append (name col) (cell e) data) ->
  forall data errors v,
    PyDict.get (name col) data = Some v ->
    extract_elements env url col elements data errors
      = (PyDict.set (name col) (v ++ map cell elements)%list data, errors).
Proof.
  induction elements as [|e rest IH]; intros Hcell data errors v G;
    cbn [extract_elements map].
  - now rewrite app_nil_r, (set_same _ _ _ G).
  - rewrite (Hcell e data (or_introl eq_refl)).
    unfold PyDict.append. rewrite G.
    rewrite (IH (fun e' d Hin => Hcell e' d (or_intror Hin)) _ errors
               (v ++ [cell e])%list (get_set_same _ _ _)).
    now rewrite set_set, <- app_assoc.
Qed.

(** X2: a column that is no link column never writes to [errors]: when its
    name is a key of [data], the loop appends to it the cells of the matched
    elements in their order, the stripped text or, for a numeric column, the
    number read from it. *)
Theorem non_link_column_cells (env : Env) (url : string) (col : Column)
  (elements : list Element) (data : Dict) (errors : list string)
  (v : list Cell) :
  is_link col = false ->
  PyDict.get (name col) data = Some v ->
  extract_elements env url col elements data errors
    = (PyDict.set (name col) (v ++ map (text_cell env col) elements)%list data,
       errors).
Proof.
  intros Hl G. apply extract_elements_cells; [|exact G].
  intros e d _. unfold extract_element, text_cell. rewrite Hl.
  now destruct (as_numeric col).
Qed.

Lemma non_link_column_cells_witness :
  extract_elements (Demo.env 200 Demo.page) "http://x"
    {| name := "n"; tag := "div"; is_link := false; as_numeric := true |}
    Demo.page [("n", [VNone])] []
    = ([("n", [VNone; VNone; VInt 42; VFloat {| Number.mant := 35; Number.scale := 1 |};
               VNone])], []).
Proof.
  rewrite (non_link_column_cells (Demo.env 200 Demo.page) "http://x"
             {| name := "n"; tag := "div"; is_link := false; as_numeric := true |}
             Demo.page [("n", [VNone])] [] [VNone] eq_refl eq_refl).
  reflexivity.
Defined.

(** X3: in a link column, when urljoin answers for every non-empty href of
    the matched elements, the loop writes nothing to [errors] and appends
    one cell per element in order: the resolved URL, or None for an element
    whose href is missing or empty; the numeric flag plays no part. *)
Theorem link_column_cells (env : Env) (url : string) (col : Column)
  (resolved : string -> string)
  (elements : list Element) (data : Dict) (errors : list string)
  (v : list Cell) :
  is_link col = true ->
  (forall e href, In e elements -> el_href e = Some href ->
     nonempty href = true -> urljoin env url href = Ok (resolved href)) ->
  PyDict.get (name col) data = Some v ->
  extract_elements env url col elements data errors
    = (PyDict.set (name col) (v ++ map (link_cell resolved) elements)%list data,
       errors).
Proof.
  intros Hl Hjoin G. apply extract_elements_cells; [|exact G].
  intros e d Hin. unfold extract_element, link_cell. rewrite Hl.
  destruct (el_href e) as [href|] eqn:Eh; [|reflexivity].
  destruct (nonempty href) eqn:En; [|reflexivity].
  now rewrite (Hjoin e href Hin Eh En).
Qed.

Lemma link_column_cells_witness :
  extract_elements (Demo.env 200 Demo.page) "http://x"
    {| name := "l"; tag := "a"; is_link := true; as_numeric := true |}
    [ {| el_name := "a"; el_class := None; el_href := Some "/abstract/1";
         el_text := "7"; el_text_strip := "7" |};
      {| el_name := "a"; el_class := None; el_href := Some "";
         el_text := "8"; el_text_strip := "8" |};
      {| el_name := "a"; el_class := None; el_href := None;
         el_text := "9"; el_text_strip := "9" |} ]
    [("l", [])] []
    = ([("l", [VStr "http://x/abstract/1"; VNone; VNone])], []).
Proof.
  rewrite (link_column_cells (Demo.env 200 Demo.page) "http://x"
             {| name := "l"; tag := "a"; is_link := true; as_numeric := true |}
             (fun href => "http://x" ++ href) _ [("l", [])] [] [] eq_refl).
  - reflexivity.
  - intros e href _ _ _. reflexivity.
  - reflexivity.
Defined.

(** ** Strategies 2 and 3 *)

Lemma advance_nil (st : State) : advance st [] [] = st.
Proof. destruct st. unfold advance. simpl. now rewrite !app_nil_r. Qed.

Lemma advance_advance (st : State) (l1 l2 : list string) (e1 e2 : list Event) :
  advance (advance st l1 e1) l2 e2 = advance st (l1 ++ l2) (e1 ++ e2).
Proof. unfold advance. simpl. now rewrite !app_assoc. Qed.

Lemma strategy2_parts_found (env : Env) (soup : Soup) (tg : string)
  (re : string -> string -> bool) (parts : list string) :
  (forall part, In part (filter nonempty parts) ->
     re_compile env part = Ok (re part)) ->
  forall elements st,
    strategy2_parts env soup tg parts elements st
      = (Ok (elements ++
             flat_map (fun part => Bs4.find_all_class tg (re part) soup)
               (filter nonempty parts))%list,
         advance st [] (map (FindAllPartial tg) (filter nonempty parts))).
Proof.
  induction parts as [|part rest IH]; intros Hre elements st;
    cbn [strategy2_parts filter].
  - simpl. now rewrite app_nil_r, advance_nil.
  - destruct (nonempty part) eqn:E.
    + unfold bind at 1 2. unfold emit, lift.
      rewrite (Hre part) by (cbn [filter]; rewrite E; now left).
      rewrite IH.
      * cbn [flat_map map]. rewrite <- app_assoc. f_equal.
        unfold advance. simpl. now rewrite <- !app_assoc.
      * intros p Hp. apply Hre. cbn [filter]. rewrite E. now right.
    + apply IH. intros p Hp. apply Hre. cbn [filter]. now rewrite E.
Qed.

(** X4: when Strategy 1 finds nothing and the selector has a point,
    Strategy 2 looks up every non-empty token in turn and chains what each
    lookup finds, so an element that matches two tokens is there twice; when
    anything was found this way it is the result, and Strategy 3 is not
    tried. *)
Theorem strategy2_concatenates (env : Env) (soup : Soup) (col : Column)
  (css_class : string) (re : string -> string -> bool) (st : State) :
  exact_matches soup col css_class = [] ->
  Str.contains "." css_class = true ->
  (forall part, In part (selector_parts css_class) ->
     re_compile env part = Ok (re part)) ->
  flat_map (fun part => Bs4.find_all_class (tag col) (re part) soup)
    (selector_parts css_class) <> [] ->
  resolve env soup col css_class st
    = (Ok (flat_map (fun part => Bs4.find_all_class (tag col) (re part) soup)
             (selector_parts css_class)),
       advance st
         [ "  Strategy 1 (exact class): 0 elements";
           "  Strategy 2 (partial class): "
             ++ Str.of_nat
                  (List.length
                     (flat_map
                        (fun part => Bs4.find_all_class (tag col) (re part) soup)
                        (selector_parts css_class)))
             ++ " elements" ]
         (FindAllExact (tag col) css_class
            :: map (FindAllPartial (tag col)) (selector_parts css_class))).
Proof.
  intros Hex Hdot Hre Hne. rewrite resolve_unfold, Hex.
  unfold strategy2. cbn [is_nil andb]. rewrite Hdot.
  unfold bind at 1.
  rewrite (strategy2_parts_found env soup (tag col) re _ Hre).
  cbn [app]. fold (selector_parts css_class).
  unfold bind, debug, ret. cbn [fst snd].
  unfold strategy3.
  destruct (flat_map _ (selector_parts css_class)) as [|e els] eqn:F;
    [congruence|].
  cbn [is_nil]. unfold ret. f_equal.
  unfold strategy1, exact_matches in *. unfold bind, emit, debug, ret.
  unfold Bs4.find_all_class in Hex |- *. rewrite Hex.
  unfold advance. simpl. now rewrite <- !app_assoc.
Qed.

Lemma strategy2_concatenates_witness :
  fst (resolve (Demo.env 200 Demo.page) Demo.page (Demo.col "A" "div")
         "card.author" init)
    = Ok [ Demo.elem "div" ["card"; "author"] "Ada";
           Demo.elem "div" ["card"; "author"] "Ada" ].
Proof.
  rewrite (strategy2_concatenates (Demo.env 200 Demo.page) Demo.page
             (Demo.col "A" "div") "card.author" Str.contains init).
  - reflexivity.
  - reflexivity.
  - reflexivity.
  - intros part _. reflexivity.
  - vm_compute. discriminate.
Defined.

(** X5: an exception of [soup.select] does not leave the column: when
    Strategy 1 finds nothing and the selector has no point, the column goes
    on with no element, and the trace says "CSS selector failed" with the
    message. *)
Theorem selector_error_absorbed (env : Env) (soup : Soup) (col : Column)
  (css_class msg : string) (st : State) :
  exact_matches soup col css_class = [] ->
  Str.contains "." css_class = false ->
  soup_select env soup (css_selector col css_class) = Raise msg ->
  resolve env soup col css_class st
    = (Ok [],
       advance st
         [ "  Strategy 1 (exact class): 0 elements";
           "  CSS selector failed: " ++ msg ]
         [ FindAllExact (tag col) css_class;
           SelectCss (css_selector col css_class) ]).
Proof.
  intros Hex Hdot Hsel. rewrite resolve_unfold, Hex.
  unfold strategy2. cbn [is_nil andb]. rewrite Hdot.
  unfold ret at 1. unfold strategy3. cbn [is_nil].
  unfold try_except, bind, emit, lift. rewrite Hsel.
  unfold debug, ret. f_equal.
  unfold strategy1, exact_matches in *. unfold bind, emit, debug, ret.
  unfold Bs4.find_all_class in Hex |- *. rewrite Hex.
  unfold advance. simpl. now rewrite <- !app_assoc.
Qed.

Lemma selector_error_absorbed_witness :
  fst (resolve
         {| SELENIUM_AVAILABLE := false; enable_debug := false;
            save_html := false; timeout := 20; wait_time := 10;
            headless := true; int_max_str_digits := 4300;
     decimal_zeros := Unicode.zeros_14_0;
            requests_get := fun _ _ => Raise "no network";
            html_parser := fun _ => Demo.page;
            re_compile := fun p => Ok (Str.contains p);
            soup_select := fun _ _ => Raise "Invalid character";
            urljoin := fun base href => Ok (base ++ href);
            write_html := fun _ => Ok tt;
            webdriver_Chrome := fun _ => Raise "no chrome" |}
         Demo.page (Demo.col "A" "div") "a[b" init)
    = Ok [].
Proof.
  rewrite (selector_error_absorbed _ Demo.page (Demo.col "A" "div") "a[b"
             "Invalid character" init); reflexivity.
Defined.

Lemma strategy2_parts_raises (env : Env) (soup : Soup) (tg : string)
  (part msg : string) (parts : list string) :
  forall more elements st,
    filter nonempty parts = part :: more ->
    re_compile env part = Raise msg ->
    fst (strategy2_parts env soup tg parts elements st) = Raise msg.
Proof.
  induction parts as [|p rest IH]; intros more elements st Hf Hre;
    cbn [strategy2_parts filter] in *.
  - discriminate.
  - destruct (nonempty p) eqn:E.
    + inversion Hf; subst. unfold bind, emit, lift. now rewrite Hre.
    + now apply (IH more).
Qed.

Lemma log_page_content_run (env : Env) (soup : Soup) (url : string) (st : State) :
  log_page_content env soup url st
    = (Ok tt,
       advance st
         (if enable_debug env then debug_page_content soup url else []) []).
Proof.
  unfold log_page_content. destruct (enable_debug env).
  - unfold debug_page_content. cbn [fold_right].
    unfold bind, debug, ret, advance. cbn [fst snd debug_info events driver].
    now rewrite <- !app_assoc, app_nil_r.
  - unfold ret. now rewrite advance_nil.
Qed.

Lemma bind_raise {A B} (m : M A) (k : A -> M B) (st : State) (msg : string) :
  fst (m st) = Raise msg -> fst (bind m k st) = Raise msg.
Proof.
  unfold bind. destruct (m st) as [[a|msg'] st']; simpl; congruence.
Qed.

Lemma bind_ok {A B} (m : M A) (k : A -> M B) (st st' : State) (a : A) :
  m st = (Ok a, st') -> bind m k st = k a st'.
Proof. unfold bind. now intros ->. Qed.

Lemma settle_raise (r : Exc (option Table * list string) * State) (msg : string) :
  fst r = Raise msg ->
  outcome_table (settle r) = None /\
  outcome_errors (settle r) = ["Critical error: " ++ msg].
Proof.
  destruct r as [[[df errors]|msg'] st]; simpl; [discriminate|].
  intros H; inversion H. split; reflexivity.
Qed.

Lemma contains_nonempty (w s : string) :
  w <> "" -> Str.contains w s = true -> nonempty s = true.
Proof.
  intros Hw H. destruct s; [|reflexivity].
  destruct w; [congruence | discriminate].
Qed.

(** X6: an exception of [re.compile] is caught nowhere near: when the first
    column finds nothing by exact match, its selector has a point and the
    first non-empty token of the selector is not a valid pattern, a scrape
    that got status 200 returns no table and the one error "Critical error:
    <message>", whatever the other columns are. *)
Theorem regex_error_is_critical (env : Env) (url : string)
  (col : Column) (css_class : string)
  (columns : list Column) (css_classes : list string)
  (response : Response) (part msg : string) (more : list string) :
  requests_get env url (timeout env) = Ok response ->
  status_code response = 200%Z ->
  save_html env = false ->
  nonempty (name col) = true ->
  exact_matches (html_parser env (content response)) col css_class = [] ->
  Str.contains "." css_class = true ->
  selector_parts css_class = part :: more ->
  re_compile env part = Raise msg ->
  outcome_table (scrape_with_requests env url (col :: columns)
                   (css_class :: css_classes)) = None /\
  outcome_errors (scrape_with_requests env url (col :: columns)
                    (css_class :: css_classes)) = ["Critical error: " ++ msg].
Proof.
  intros Hget Hst Hsave Hname Hex Hdot Hparts Hre.
  pose proof (scrape_with_requests_cases env url (col :: columns)
                (css_class :: css_classes)) as C.
  rewrite Hget, Hst in C. cbn [Z.eqb Pos.eqb] in C. rewrite C. clear C.
  set (soup := html_parser env (content response)) in *.
  apply settle_raise.
  unfold scrape_soup.
  rewrite (bind_ok _ _ _ _ _ (log_page_content_run env soup url _)).
  unfold save_page. rewrite Hsave. unfold bind at 1, ret at 1.
  apply bind_raise. cbn [combine process_columns].
  apply bind_raise. unfold process_column.
  rewrite Hname, (contains_nonempty "." css_class ltac:(discriminate) Hdot).
  cbn [negb orb]. unfold bind at 1, debug at 1.
  apply bind_raise. rewrite resolve_unfold, Hex.
  unfold strategy2. cbn [is_nil andb]. rewrite Hdot.
  match goal with
  | |- fst (match bind ?m ?k ?s with _ => _ end) = _ =>
      pose proof (bind_raise m k s msg) as R
  end.
  rewrite (strategy2_parts_raises env soup (tag col) part msg _ more) in R;
    [|exact Hparts | exact Hre].
  specialize (R eq_refl).
  destruct (bind _ _ _) as [[e|m'] s']; simpl in R |- *; congruence.
Qed.

Lemma regex_error_is_critical_witness :
  outcome_errors
    (scrape_with_requests
       {| SELENIUM_AVAILABLE := false; enable_debug := true;
          save_html := false; timeout := 20; wait_time := 10;
          headless := true; int_max_str_digits := 4300;
     decimal_zeros := Unicode.zeros_14_0;
          requests_get :=
            fun _ _ => Ok {| status_code := 200; content := "<html></html>" |};
          html_parser := fun _ => Demo.page;
          re_compile :=
            fun p => if String.eqb p "(" then Raise "missing ), unterminated subpattern"
                     else Ok (Str.contains p);
          soup_select := fun _ _ => Ok [];
          urljoin := fun base href => Ok (base ++ href);
          write_html := fun _ => Ok tt;
          webdriver_Chrome := fun _ => Raise "no chrome" |}
       "http://x" [Demo.col "A" "div"; Demo.col "B" "div"] ["(.x"; "card"])
    = ["Critical error: missing ), unterminated subpattern"].
Proof.
  eapply (regex_error_is_critical _ "http://x" (Demo.col "A" "div") "(.x"
            [Demo.col "B" "div"] ["card"]); reflexivity.
Defined.

(** ** The debug trace only grows *)

Lemma grows_ret {A} (a : A) : grows_debug (ret a).
Proof. intros st. exists []. simpl. now rewrite app_nil_r. Qed.

Lemma grows_lift {A} (e : Exc A) : grows_debug (lift e).
Proof. intros st. exists []. simpl. now rewrite app_nil_r. Qed.

Lemma grows_emit (ev : Event) : grows_debug (emit ev).
Proof. intros st. exists []. simpl. now rewrite app_nil_r. Qed.

Lemma grows_line (line : string) : grows_debug (debug line).
Proof. intros st. now exists [line]. Qed.

Lemma grows_bind {A B} (m : M A) (k : A -> M B) :
  grows_debug m -> (forall a, grows_debug (k a)) -> grows_debug (bind m k).
Proof.
  intros Hm Hk st. unfold bind.
  destruct (Hm st) as (l1 & E1).
  destruct (m st) as [[a|msg] st1]; simpl in E1.
  - destruct (Hk a st1) as (l2 & E2). exists (l1 ++ l2)%list.
    now rewrite E2, E1, app_assoc.
  - now exists l1.
Qed.

Lemma grows_try_except {A} (body : M A) (handler : string -> M A) :
  grows_debug body -> (forall msg, grows_debug (handler msg)) ->
  grows_debug (try_except body handler).
Proof.
  intros Hb Hh st. unfold try_except.
  destruct (Hb st) as (l1 & E1).
  destruct (body st) as [[a|msg] st1]; simpl in E1.
  - now exists l1.
  - destruct (Hh msg st1) as (l2 & E2). exists (l1 ++ l2)%list.
    now rewrite E2, E1, app_assoc.
Qed.

Lemma grows_strategy2_parts (env : Env) (soup : Soup) (tg : string)
  (parts : list string) :
  forall elements, grows_debug (strategy2_parts env soup tg parts elements).
Proof.
  induction parts as [|part rest IH]; intros elements; cbn [strategy2_parts].
  - apply grows_ret.
  - destruct (nonempty part); [|apply IH].
    apply grows_bind; [apply grows_emit | intros _].
    apply grows_bind; [apply grows_lift | intros re]. apply IH.
Qed.

Lemma grows_resolve (env : Env) (soup : Soup) (col : Column) (css_class : string) :
  grows_debug (resolve env soup col css_class).
Proof.
  unfold resolve.
  apply grows_bind.
  { unfold strategy1. apply grows_bind; [apply grows_emit | intros _].
    apply grows_bind; [apply grows_line | intros _; apply grows_ret]. }
  intros e1. apply grows_bind.
  { unfold strategy2. destruct (is_nil e1 && Str.contains "." css_class);
      [|apply grows_ret].
    apply grows_bind; [apply grows_strategy2_parts | intros e2].
    apply grows_bind; [apply grows_line | intros _; apply grows_ret]. }
  intros e2. unfold strategy3. destruct (is_nil e2); [|apply grows_ret].
  apply grows_try_except.
  - apply grows_bind; [apply grows_emit | intros _].
    apply grows_bind; [apply grows_lift | intros found].
    apply grows_bind; [apply grows_line | intros _; apply grows_ret].
  - intros msg. apply grows_bind; [apply grows_line | intros _; apply grows_ret].
Qed.

Lemma grows_process_column (env : Env) (url : string) (soup : Soup)
  (col : Column) (css_class : string) (data : Dict) (errors : list string) :
  grows_debug (process_column env url soup col css_class data errors).
Proof.
  unfold process_column.
  destruct (negb (nonempty css_class) || negb (nonempty (name col)));
    [apply grows_ret|].
  apply grows_bind; [apply grows_line | intros _].
  apply grows_bind; [apply grows_resolve | intros elements].
  destruct (extract_elements env url col elements data errors) as [d e].
  apply grows_bind; [apply grows_lift | intros n].
  apply grows_bind; [apply grows_line | intros _; apply grows_ret].
Qed.

Lemma grows_process_columns (env : Env) (url : string) (soup : Soup)
  (pairs : list (Column * string)) :
  forall data errors,
    grows_debug (process_columns env url soup pairs data errors).
Proof.
  induction pairs as [|[col css_class] rest IH]; intros data errors;
    cbn [process_columns].
  - apply grows_ret.
  - apply grows_bind; [apply grows_process_column | intros r; apply IH].
Qed.

Lemma grows_scrape_soup (env : Env) (url : string) (soup : Soup)
  (columns : list Column) (css_classes : list string) :
  grows_debug (scrape_soup env url soup columns css_classes).
Proof.
  unfold scrape_soup.
  apply grows_bind.
  { intros st. rewrite log_page_content_run. now eexists. }
  intros _. apply grows_bind.
  { unfold save_page. destruct (save_html env); [|apply grows_ret].
    apply grows_bind; [apply grows_lift | intros _; apply grows_line]. }
  intros _. apply grows_bind; [apply grows_process_columns | intros r].
  intros st. rewrite assemble_cases. exists [].
  destruct (no_data (fst r)); simpl; now rewrite app_nil_r.
Qed.

Lemma settle_debug (r : Exc (option Table * list string) * State) :
  snd (settle r) = debug_info (snd r).
Proof. now destruct r as [[[df errors]|msg] st]. Qed.

Lemma grows_body (env : Env) (url : string)
  (columns : list Column) (css_classes : list string) :
  grows_debug (scrape_with_requests_body env url columns css_classes).
Proof.
  unfold scrape_with_requests_body.
  apply grows_bind; [apply grows_lift | intros response].
  apply grows_bind; [apply grows_line | intros _].
  apply grows_bind; [apply grows_line | intros _].
  destruct (negb (Z.eqb (status_code response) 200));
    [apply grows_ret | apply grows_scrape_soup].
Qed.

(** X7: the debug trace is append-only and comes back whole.  What
    scrape_with_requests returns as trace is the trace as it stood when the
    body of its [try] returned or raised; and every stage, the body, the
    extraction from a parsed page, the loop over the columns, one column,
    ends with the trace it started from in front of what it added, also
    when it raises.  So once the response has arrived the returned trace
    begins with the two lines about the response, on every way out. *)
Theorem trace_survives_failure (env : Env) (url : string)
  (columns : list Column) (css_classes : list string) :
  snd (scrape_with_requests env url columns css_classes)
    = debug_info (snd (scrape_with_requests_body env url columns css_classes init)) /\
  (forall st, exists more,
      debug_info (snd (scrape_with_requests_body env url columns css_classes st))
        = (debug_info st ++ more)%list) /\
  (forall soup st, exists more,
      debug_info (snd (scrape_soup env url soup columns css_classes st))
        = (debug_info st ++ more)%list) /\
  (forall soup pairs data errors st, exists more,
      debug_info (snd (process_columns env url soup pairs data errors st))
        = (debug_info st ++ more)%list) /\
  (forall soup col css_class data errors st, exists more,
      debug_info (snd (process_column env url soup col css_class data errors st))
        = (debug_info st ++ more)%list) /\
  (forall response,
      requests_get env url (timeout env) = Ok response ->
      exists more,
        snd (scrape_with_requests env url columns css_classes)
          = List.app
              [ "HTTP Status: " ++ Str.of_Z (status_code response);
                "Content Length: "
                  ++ Str.of_nat (String.length (content response)) ++ " bytes" ]
              more).
Proof.
  split; [|split; [|split; [|split; [|split]]]].
  - unfold scrape_with_requests, run_requests. cbn [fst]. apply settle_debug.
  - apply grows_body.
  - intros soup. apply grows_scrape_soup.
  - intros soup pairs data errors. apply grows_process_columns.
  - intros soup col css_class data errors. apply grows_process_column.
  - intros response Hget.
    pose proof (scrape_with_requests_cases env url columns css_classes) as C.
    rewrite Hget in C.
    destruct (Z.eqb (status_code response) 200); rewrite C.
    + rewrite settle_debug.
      destruct (grows_scrape_soup env url (html_parser env (content response))
                  columns css_classes (after_fetch response)) as (more & E).
      exists more. exact E.
    + exists []. reflexivity.
Qed.

Lemma trace_survives_failure_witness :
  exists more,
    snd (scrape_with_requests (Demo.env 200 Demo.page) "http://x"
           [Demo.col "A" "div"] ["nothing"])
      = (["HTTP Status: 200"; "Content Length: 13 bytes"] ++ more)%list.
Proof.
  destruct (trace_survives_failure (Demo.env 200 Demo.page) "http://x"
              [Demo.col "A" "div"] ["nothing"]) as (_ & _ & _ & _ & _ & H).
  apply (H {| status_code := 200; content := "<html></html>" |}).
  reflexivity.
Defined.

(** X8: when saving the page is switched on and writing the file fails, the
    scrape of a page that was fetched with status 200 is lost: it returns no
    table and "Critical error: <message>"; the lines of the page inspector
    are still in the trace. *)
Theorem save_failure_is_critical (env : Env) (url : string)
  (columns : list Column) (css_classes : list string)
  (response : Response) (msg : string) :
  requests_get env url (timeout env) = Ok response ->
  status_code response = 200%Z ->
  save_html env = true ->
  write_html env (html_parser env (content response)) = Raise msg ->
  scrape_with_requests env url columns css_classes
    = (None, ["Critical error: " ++ msg],
       List.app (debug_info (after_fetch response))
         (if enable_debug env
          then debug_page_content (html_parser env (content response)) url
          else [])).
Proof.
  intros Hget Hst Hsave Hw.
  pose proof (scrape_with_requests_cases env url columns css_classes) as C.
  rewrite Hget, Hst in C. cbn [Z.eqb Pos.eqb] in C. rewrite C. clear C.
  unfold scrape_soup.
  rewrite (bind_ok _ _ _ _ _ (log_page_content_run env _ url _)).
  unfold save_page. rewrite Hsave.
  unfold bind, lift. rewrite Hw. reflexivity.
Qed.

Lemma save_failure_is_critical_witness :
  outcome_errors
    (scrape_with_requests
       {| SELENIUM_AVAILABLE := false; enable_debug := false;
          save_html := true; timeout := 20; wait_time := 10;
          headless := true; int_max_str_digits := 4300;
     decimal_zeros := Unicode.zeros_14_0;
          requests_get :=
            fun _ _ => Ok {| status_code := 200; content := "<html></html>" |};
          html_parser := fun _ => Demo.page;
          re_compile := fun p => Ok (Str.contains p);
          soup_select := fun _ _ => Ok [];
          urljoin := fun base href => Ok (base ++ href);
          write_html := fun _ => Raise "Permission denied";
          webdriver_Chrome := fun _ => Raise "no chrome" |}
       "http://x" [Demo.col "A" "div"] ["card"])
    = ["Critical error: Permission denied"].
Proof.
  erewrite save_failure_is_critical; reflexivity.
Defined.

(** ** The browser *)

(** X9: setup_selenium_driver never raises and never writes to the trace.
    It returns a driver exactly when Chrome started; when Selenium is not
    there it does nothing at all, and when Chrome fails to start it shows
    "Failed to setup Chrome driver: <message>" and returns None. *)
Theorem setup_selenium_driver_safe (env : Env) (headless_flag : bool) (st : State) :
  exists r st',
    setup_selenium_driver env headless_flag st = (Ok r, st') /\
    debug_info st' = debug_info st /\
    match r with
    | Some d =>
        SELENIUM_AVAILABLE env = true /\
        webdriver_Chrome env (chrome_arguments headless_flag) = Ok d /\
        events st' = (events st ++ [BrowserStarted])%list
    | None =>
        (SELENIUM_AVAILABLE env = false /\ st' = st) \/
        (exists msg,
            webdriver_Chrome env (chrome_arguments headless_flag) = Raise msg /\
            events st' =
              (events st ++ [StError ("Failed to setup Chrome driver: " ++ msg)])%list)
    end.
Proof.
  unfold setup_selenium_driver.
  destruct (SELENIUM_AVAILABLE env) eqn:Ha; cbn [negb].
  - unfold try_except, bind, lift, emit, ret.
    destruct (webdriver_Chrome env (chrome_arguments headless_flag)) as [d|msg].
    + eexists (Some d), _. split; [reflexivity|]. simpl. auto.
    + eexists None, _. split; [reflexivity|]. simpl. split; [reflexivity|].
      right. now exists msg.
  - exists None, st. split; [reflexivity|]. split; [reflexivity|]. now left.
Qed.

Lemma selenium_outcomes (env : Env) (url : string)
  (columns : list Column) (css_classes : list string) :
  exists err dbg,
    scrape_with_selenium env url columns css_classes = Some (None, [err], dbg) /\
    (err = "Selenium not available" \/
     err = "Failed to setup Chrome driver" \/
     exists msg, err = "Selenium error: " ++ msg).
Proof.
  unfold scrape_with_selenium, run_selenium, scrape_with_selenium_body,
    selenium_try, setup_selenium_driver, selenium_finally,
    scrape_with_requests_logic.
  destruct (SELENIUM_AVAILABLE env); simpl.
  2: { eexists _, _. split; [reflexivity | auto]. }
  unfold try_finally, try_except, bind, lift, emit, debug, set_driver,
    get_driver, ret; simpl.
  destruct (webdriver_Chrome env (chrome_arguments (headless env))) as [d|m];
    simpl.
  - destruct (driver_get d url) as [[]|m1]; simpl;
      [destruct (driver_title d) as [t|m2]; simpl;
       [destruct (driver_page_source d) as [src|m3]; simpl|]|];
      eexists _, _; (split; [reflexivity|]); right; right; eexists; reflexivity.
  - eexists _, _. split; [reflexivity | auto].
Qed.

(** X10: scrape_with_selenium returns no table on any path: it always
    returns, with exactly one error, which is "Selenium not available",
    "Failed to setup Chrome driver" or a "Selenium error: ..." line. *)
Theorem selenium_returns_no_table (env : Env) (url : string)
  (columns : list Column) (css_classes : list string) :
  exists err dbg,
    scrape_with_selenium env url columns css_classes = Some (None, [err], dbg) /\
    (err = "Selenium not available" \/
     err = "Failed to setup Chrome driver" \/
     exists msg, err = "Selenium error: " ++ msg).
Proof. apply selenium_outcomes. Qed.

(** ** The table that comes back *)

Lemma scrape_soup_table (env : Env) (url : string) (soup : Soup)
  (columns : list Column) (css_classes : list string) (st : State) :
  match scrape_soup env url soup columns css_classes st with
  | (Ok (Some table, _), _) =>
      exists data, no_data data = false /\ table = pad (max_length data) data
  | _ => True
  end.
Proof.
  unfold scrape_soup. unfold bind at 1.
  destruct (log_page_content env soup url st) as [[[]|msg] st1]; [|exact I].
  unfold bind at 1.
  destruct (save_page env soup st1) as [[[]|msg] st2]; [|exact I].
  unfold bind at 1.
  destruct (process_columns env url soup _ (init_data columns) [] st2)
    as [[[d e]|msg] st3]; [|exact I].
  cbn [fst snd]. rewrite assemble_cases.
  destruct (no_data d) eqn:N; [exact I|]. now exists d.
Qed.

Lemma returned_table_padded (env : Env) (url : string)
  (columns : list Column) (css_classes : list string)
  (table : Table) (errors dbg : list string) :
  scrape_with_requests env url columns css_classes = (Some table, errors, dbg) ->
  exists data, no_data data = false /\ table = pad (max_length data) data.
Proof.
  intros H.
  pose proof (scrape_with_requests_cases env url columns css_classes) as C.
  destruct (requests_get env url (timeout env)) as [response|msg];
    [|rewrite C in H; discriminate].
  destruct (Z.eqb (status_code response) 200); [|rewrite C in H; discriminate].
  rewrite C in H. clear C.
  pose proof (scrape_soup_table env url (html_parser env (content response))
                columns css_classes (after_fetch response)) as S.
  destruct (scrape_soup env url _ columns css_classes (after_fetch response))
    as [[[[t|] e]|msg] st]; simpl in H; try discriminate.
  inversion H; subst. exact S.
Qed.

Lemma padded_rows (data : Dict) :
  no_data data = false ->
  df_len (pad (max_length data) data) = max_length data /\
  0 < max_length data.
Proof.
  intros N. split; [|now apply max_length_positive].
  pose proof (pad_lengths data) as L.
  destruct data as [|[k v] rest].
  - apply no_data_false in N as (v & [] & _).
  - inversion L; subst. assumption.
Qed.

Lemma returned_table_shown (env : Env) (url : string)
  (columns : list Column) (css_classes : list string)
  (table : Table) (errors dbg : list string) :
  scrape_with_requests env url columns css_classes = (Some table, errors, dbg) ->
  show_results (Some table) = ShownRows (df_len table).
Proof.
  intros H. apply returned_table_padded in H as (data & N & ->).
  destruct (padded_rows data N) as [E P].
  unfold show_results. rewrite E.
  apply Nat.ltb_lt in P. now rewrite P.
Qed.

(** X11: a table that scrape_with_requests returns has at least one row,
    and every column has exactly that many cells: the display test
    [len(df) > 0] holds for every table that is not None. *)
Theorem returned_table_is_rectangular (env : Env) (url : string)
  (columns : list Column) (css_classes : list string)
  (table : Table) (errors dbg : list string) :
  scrape_with_requests env url columns css_classes = (Some table, errors, dbg) ->
  0 < df_len table /\
  Forall (fun kv => List.length (snd kv) = df_len table) table /\
  show_results (Some table) = ShownRows (df_len table).
Proof.
  intros H. apply returned_table_padded in H as (data & N & ->).
  destruct (padded_rows data N) as [E P]. rewrite E.
  split; [exact P|]. split; [apply pad_lengths|].
  unfold show_results. rewrite E.
  apply Nat.ltb_lt in P. now rewrite P.
Qed.

Lemma returned_table_is_rectangular_witness :
  show_results (Some [("A", [VStr "Ada"]); ("B", [VNone])]) = ShownRows 1.
Proof.
  destruct (returned_table_is_rectangular (Demo.env 200 Demo.page) "http://x"
              [Demo.col "A" "div"; Demo.col "B" "div"] ["card"; ""]
              [("A", [VStr "Ada"]); ("B", [VNone])] []
              [ "HTTP Status: 200"; "Content Length: 13 bytes";
                "Looking for: div.card"; "  Strategy 1 (exact class): 1 elements";
                "  Final count for A: 1" ] eq_refl) as (_ & _ & H).
  exact H.
Defined.

(** ** The scraping button *)

(** X12: with the static method (any method but "JavaScript (Selenium)", or
    Selenium missing) a requested scrape ends on the success line exactly
    when scrape_with_requests returned a table, with its number of rows,
    which is at least 1; otherwise it ends on the no-data line.  Without a
    click, a URL and a named column nothing is scraped. *)
Theorem static_scrape_display (env : Env) (scrape_button : bool)
  (scrape_method url : string)
  (columns : list Column) (css_classes : list string) :
  String.eqb scrape_method "JavaScript (Selenium)" && SELENIUM_AVAILABLE env
    = false ->
  main_scrape env scrape_button scrape_method url columns css_classes =
    if scrape_button && nonempty url
       && existsb (fun col => nonempty (name col)) columns
    then
      match outcome_table (scrape_with_requests env url columns css_classes) with
      | Some table => Some (ShownRows (df_len table))
      | None => Some ShownNoData
      end
    else None.
Proof.
  intros Hm. unfold main_scrape, scrape_requested, dispatch. rewrite Hm.
  destruct (scrape_button && nonempty url && existsb _ columns); [|reflexivity].
  cbn [option_map].
  destruct (scrape_with_requests env url columns css_classes)
    as [[[table|] errors] dbg] eqn:E; [|reflexivity].
  unfold outcome_table. cbn [fst]. f_equal.
  exact (returned_table_shown env url columns css_classes table errors dbg E).
Qed.

Lemma static_scrape_display_witness :
  main_scrape (Demo.env 200 Demo.page) true "Static HTML (Requests)" "http://x"
    [Demo.col "A" "div"; Demo.col "B" "div"] ["card"; ""]
    = Some (ShownRows 1).
Proof.
  rewrite (static_scrape_display (Demo.env 200 Demo.page) true
             "Static HTML (Requests)" "http://x"
             [Demo.col "A" "div"; Demo.col "B" "div"] ["card"; ""] eq_refl).
  reflexivity.
Defined.

(** X13: with the method "JavaScript (Selenium)" and Selenium there, a
    requested scrape always ends on the line that no data could be
    extracted, whatever the page holds. *)
Theorem selenium_scrape_display (env : Env) (scrape_button : bool)
  (url : string) (columns : list Column) (css_classes : list string) :
  SELENIUM_AVAILABLE env = true ->
  scrape_requested scrape_button url columns = true ->
  main_scrape env scrape_button "JavaScript (Selenium)" url columns css_classes
    = Some ShownNoData.
Proof.
  intros Ha Hr. unfold main_scrape, dispatch. rewrite Hr, Ha.
  cbn [String.eqb Ascii.eqb Bool.eqb andb].
  destruct (selenium_outcomes env url columns css_classes) as (err & dbg & E & _).
  now rewrite E.
Qed.

Lemma selenium_scrape_display_witness :
  main_scrape (Demo.env 200 Demo.page) true "JavaScript (Selenium)" "http://x"
    [Demo.col "A" "div"] ["card"]
    = Some ShownNoData.
Proof.
  apply (selenium_scrape_display (Demo.env 200 Demo.page) true "http://x"
           [Demo.col "A" "div"] ["card"]); reflexivity.
Defined.

(** ** Nothing to look up *)





Lemma body_after_fetch (env : Env) (url : string)
  (columns : list Column) (css_classes : list string) (response : Response) :
  requests_get env url (timeout env) = Ok response ->
  status_code response = 200%Z ->
  scrape_with_requests_body env url columns css_classes init
    = scrape_soup env url (html_parser env (content response))
        columns css_classes (after_fetch response).
Proof.
  intros Hget Hst. unfold scrape_with_requests_body.
  unfold bind at 1. unfold lift. rewrite Hget.
  unfold bind, debug.
  destruct (Z.eqb_spec (status_code response) 200); [reflexivity | congruence].
Qed.



(** ** Columns of one length *)

Lemma max_length_uniform (n : nat) (data : Dict) :
  data <> [] ->
  Forall (fun kv => List.length (snd kv) = n) data ->
  max_length data = n.
Proof.
  intros Hne Hall.
  destruct (max_length_bounds data) as [Hle Hex].
  assert (Hv : forall v, In v (PyDict.values data) -> List.length v = n).
  { intros v Hin. unfold PyDict.values in Hin.
    apply in_map_iff in Hin as (kv & <- & Hin).
    rewrite Forall_forall in Hall. now apply Hall. }
  destruct Hex as [Hz | (v & Hin & Hlen)].
  - destruct data as [|[k v] rest]; [congruence|].
    specialize (Hle v (or_introl eq_refl)).
    specialize (Hv v (or_introl eq_refl)). lia.
  - rewrite <- Hlen. now apply Hv.
Qed.

Lemma assemble_uniform (n : nat) (data : Dict)
  (errors : list string) (st : State) :
  0 < n -> data <> [] ->
  Forall (fun kv => List.length (snd kv) = n) data ->
  assemble data errors st = (Ok (Some data, errors), st).
Proof.
  intros Hn Hne Hall.
  assert (N : no_data data = false).
  { apply no_data_false. destruct data as [|[k v] rest]; [congruence|].
    exists v. split; [now left|].
    inversion Hall; subst. simpl in *. destruct v; [simpl in *; lia | discriminate]. }
  rewrite (assemble_table data errors st N).
  rewrite (max_length_uniform n data Hne Hall).
  repeat f_equal. unfold pad.
  rewrite <- (map_id data) at 2. apply map_ext_in.
  intros [k v] Hin. rewrite Forall_forall in Hall.
  specialize (Hall (k, v) Hin). simpl in *.
  unfold pad_column. rewrite Hall, Nat.ltb_irrefl. reflexivity.
Qed.

(** X15: the assembler returns a dict whose columns all have one length,
    greater than 0, as it is: nothing is padded and nothing is lost. *)
Theorem assemble_keeps_rectangular (n : nat) (data : Dict)
  (errors : list string) (st : State) :
  0 < n -> data <> [] ->
  Forall (fun kv => List.length (snd kv) = n) data ->
  assemble data errors st = (Ok (Some data, errors), st).
Proof. apply assemble_uniform. Qed.

Lemma assemble_keeps_rectangular_witness :
  assemble [("a", Demo.cells 2); ("b", Demo.cells 2)] [] init
    = (Ok (Some [("a", Demo.cells 2); ("b", Demo.cells 2)], []), init).
Proof.
  apply (assemble_keeps_rectangular 2); [lia | discriminate |].
  repeat constructor.
Defined.

(** ** The classes of a page *)

Lemma all_classes_In (soup : Soup) (c : string) :
  In c (all_classes soup) <->
  exists e toks, In e soup /\ el_class e = Some toks /\ In c toks.
Proof.
  unfold all_classes. rewrite nodup_In, in_flat_map. split.
  - intros (e & Hin & Hc). unfold Bs4.find_all_with_class in Hin.
    apply filter_In in Hin as [Hin _].
    destruct (el_class e) as [toks|] eqn:E; [|destruct Hc].
    now exists e, toks.
  - intros (e & toks & Hin & E & Hc). exists e. split.
    + unfold Bs4.find_all_with_class. apply filter_In. now rewrite E.
    + now rewrite E.
Qed.

(** X16: the page inspector counts every class token of the document once:
    [all_classes] has no duplicates, and a token is in it exactly when it is
    a token of the class attribute of some element. *)
Theorem unique_class_count (soup : Soup) (url : string) :
  NoDup (all_classes soup) /\
  (forall c, In c (all_classes soup) <->
             exists e toks, In e soup /\ el_class e = Some toks /\ In c toks) /\
  nth 1 (debug_page_content soup url) ""
    = "Total unique CSS classes found: "
        ++ Str.of_nat (List.length (all_classes soup)).
Proof.
  split; [apply NoDup_nodup|]. split; [|reflexivity].
  apply all_classes_In.
Qed.

Lemma insert_sorted_perm (x : string) (l : list string) :
  Permutation (x :: l) (insert_sorted x l).
Proof.
  induction l as [|y r IH]; simpl; [reflexivity|].
  destruct (String.leb x y); [reflexivity|].
  rewrite perm_swap. now constructor.
Qed.

Lemma insert_sorted_sorted (x : string) (l : list string) :
  Sorted (fun a b => String.leb a b = true) l ->
  Sorted (fun a b => String.leb a b = true) (insert_sorted x l).
Proof.
  induction l as [|y r IH]; simpl; intros H.
  - repeat constructor.
  - destruct (String.leb x y) eqn:E.
    + constructor; [exact H | now constructor].
    + assert (Hyx : String.leb y x = true).
      { destruct (String.leb_total x y); congruence. }
      inversion H as [|? ? Hr Hhd]; subst.
      constructor; [now apply IH|].
      destruct r as [|z r']; simpl.
      * now constructor.
      * destruct (String.leb x z); constructor; [exact Hyx|].
        now inversion Hhd.
Qed.

Lemma sorted_spec (l : list string) :
  Permutation l (sorted l) /\
  Sorted (fun a b => String.leb a b = true) (sorted l).
Proof.
  induction l as [|x l [IHp IHs]]; simpl.
  - split; constructor.
  - split; [|now apply insert_sorted_sorted].
    rewrite <- insert_sorted_perm. now constructor.
Qed.

Lemma row_codes_slice (l : list string) (i : nat) :
  row_codes l i = firstn 3 (skipn i l).
Proof.
  assert (Hlt : forall j, Nat.ltb (i + j) (List.length l)
                          = Nat.ltb j (List.length (skipn i l))).
  { intros j. rewrite length_skipn.
    destruct (Nat.ltb_spec (i + j) (List.length l)),
             (Nat.ltb_spec j (List.length l - i)); try reflexivity; lia. }
  assert (Hnth : forall j, nth (i + j) l "" = nth j (skipn i l) "").
  { intros j. symmetry. apply nth_skipn. }
  unfold row_codes. cbn [flat_map]. rewrite !Hlt, !Hnth.
  destruct (skipn i l) as [|a [|b [|c r]]]; reflexivity.
Qed.

Lemma firstn_plus {A} (a b : nat) (l : list A) :
  firstn (a + b) l = (firstn a l ++ firstn b (skipn a l))%list.
Proof.
  revert l. induction a as [|a IH]; intros l; [reflexivity|].
  destruct l as [|x l]; simpl; [now destruct b | now rewrite IH].
Qed.

Lemma rows_up_to (l : list string) (m : nat) :
  concat (map (row_codes l) (map (fun k => 3 * k) (seq 0 m))) = firstn (3 * m) l.
Proof.
  induction m as [|m IH]; [reflexivity|].
  rewrite seq_S, !map_app, concat_app, IH. cbn [map concat].
  rewrite app_nil_r, row_codes_slice.
  replace (3 * S m) with (3 * m + 3) by lia.
  now rewrite firstn_plus.
Qed.

Lemma thirds_cover (n : nat) : n <= 3 * ((n + 2) / 3).
Proof.
  pose proof (Nat.div_mod (n + 2) 3 ltac:(lia)) as D.
  pose proof (Nat.mod_upper_bound (n + 2) 3 ltac:(lia)) as U.
  lia.
Qed.

Lemma class_rows_concat (l : list string) : concat (class_rows l) = l.
Proof.
  unfold class_rows, range_by_3. rewrite rows_up_to.
  apply firstn_all2, thirds_cover.
Qed.

Lemma class_rows_sizes (l : list string) :
  Forall (fun row => 1 <= List.length row <= 3) (class_rows l).
Proof.
  unfold class_rows, range_by_3. apply Forall_forall. intros row Hin.
  apply in_map_iff in Hin as (i & <- & Hi).
  apply in_map_iff in Hi as (k & <- & Hk). apply in_seq in Hk.
  rewrite row_codes_slice, length_firstn, length_skipn.
  pose proof (Nat.div_mod (List.length l + 2) 3 ltac:(lia)) as D.
  pose proof (Nat.mod_upper_bound (List.length l + 2) 3 ltac:(lia)) as U.
  lia.
Qed.

(** X17: the debug button lays the classes of the page out in rows of three
    columns: read row by row they are the distinct classes of the page, each
    once, in ascending order; every row holds between one and three of them.
    The warning is shown instead exactly when no element has a class token:
    rows are shown only for a page on which some element has one, and then
    there is at least one row. *)
Theorem class_list_shows_each_once (soup : Soup) :
  (show_classes soup = ClassWarning <->
   forall e toks, In e soup -> el_class e = Some toks -> toks = []) /\
  match show_classes soup with
  | ClassRows rows =>
      (exists e toks c,
          In e soup /\ el_class e = Some toks /\ In c toks) /\
      rows <> [] /\
      Permutation (all_classes soup) (concat rows) /\
      NoDup (concat rows) /\
      Sorted (fun a b => String.leb a b = true) (concat rows) /\
      Forall (fun row => 1 <= List.length row <= 3) rows
  | ClassWarning =>
      forall e toks, In e soup -> el_class e = Some toks -> toks = []
  end.
Proof.
  assert (Hnone : all_classes soup = [] ->
                  forall e toks, In e soup -> el_class e = Some toks -> toks = []).
  { intros E e toks Hin Hc. destruct toks as [|t toks]; [reflexivity|].
    assert (Ht : In t (all_classes soup)).
    { apply all_classes_In. exists e, (t :: toks). repeat split; auto. now left. }
    rewrite E in Ht. destruct Ht. }
  assert (Hsome : forall c cs, all_classes soup = c :: cs ->
                  exists e toks c',
                    In e soup /\ el_class e = Some toks /\ In c' toks).
  { intros c cs E.
    assert (Hc : In c (all_classes soup)) by (rewrite E; now left).
    apply all_classes_In in Hc as (e & toks & Hin & Hcl & Hct).
    now exists e, toks, c. }
  unfold show_classes.
  destruct (all_classes soup) as [|c cs] eqn:E; cbn [is_nil].
  - split; [|now apply Hnone]. split; [intros _; now apply Hnone | reflexivity].
  - destruct (Hsome c cs eq_refl) as (e & toks & c' & Hin & Hcl & Hct).
    split.
    + split; [discriminate|]. intros Hall.
      rewrite (Hall e toks Hin Hcl) in Hct. destruct Hct.
    + split; [now exists e, toks, c'|].
      destruct (sorted_spec (c :: cs)) as [Hp Hs].
      split.
      { intros Hrows.
        pose proof (class_rows_concat (sorted (c :: cs))) as Hc.
        rewrite Hrows in Hc. cbn [concat] in Hc.
        rewrite <- Hc in Hp. apply Permutation_sym, Permutation_nil in Hp.
        discriminate. }
      rewrite class_rows_concat.
      split; [exact Hp|]. split; [|split; [exact Hs | apply class_rows_sizes]].
      apply (Permutation_NoDup Hp). rewrite <- E. apply NoDup_nodup.
Qed.

Example class_rows_of_five :
  class_rows ["a"; "b"; "c"; "d"; "e"] = [["a"; "b"; "c"]; ["d"; "e"]].
Proof. reflexivity. Qed.

(** ** A column found by its exact class, from lookup to table *)

Lemma resolve_exact_run (env : Env) (soup : Soup) (col : Column)
  (css_class : string) (st : State) :
  exact_matches soup col css_class <> [] ->
  resolve env soup col css_class st
    = (Ok (exact_matches soup col css_class),
       advance st
         [ "  Strategy 1 (exact class): "
             ++ Str.of_nat (List.length (exact_matches soup col css_class))
             ++ " elements" ]
         [ FindAllExact (tag col) css_class ]).
Proof.
  intros Hne. rewrite resolve_unfold.
  rewrite (strategy2_keeps env soup col css_class _ _ Hne).
  unfold strategy3.
  destruct (exact_matches soup col css_class) eqn:E; [congruence|].
  cbn [is_nil]. unfold ret. f_equal.
  unfold strategy1, bind, emit, debug, ret, advance. cbn [fst snd].
  unfold exact_matches in E. now rewrite E.
Qed.

Lemma exact_text_column_run (env : Env) (url : string) (soup : Soup)
  (col : Column) (css_class : string) (data : Dict) (errors : list string)
  (v : list Cell) (st : State) :
  nonempty css_class = true -> nonempty (name col) = true ->
  is_link col = false ->
  exact_matches soup col css_class <> [] ->
  PyDict.get (name col) data = Some v ->
  process_column env url soup col css_class data errors st
    = (Ok (PyDict.set (name col)
             (v ++ map (text_cell env col) (exact_matches soup col css_class))%list
             data,
           errors),
       advance st
         [ "Looking for: " ++ tag col ++ "." ++ css_class;
           "  Strategy 1 (exact class): "
             ++ Str.of_nat (List.length (exact_matches soup col css_class))
             ++ " elements";
           "  Final count for " ++ name col ++ ": "
             ++ Str.of_nat
                  (List.length v
                   + List.length (exact_matches soup col css_class)) ]
         [ FindAllExact (tag col) css_class ]).
Proof.
  intros Hc Hn Hl Hne G. unfold process_column. rewrite Hc, Hn.
  cbn [negb orb]. unfold bind at 1, debug at 1.
  rewrite (bind_ok _ _ _ _ _ (resolve_exact_run env soup col css_class _ Hne)).
  assert (Hcell : forall e d, In e (exact_matches soup col css_class) ->
            extract_element env url col d e
              = PyDict.append (name col) (text_cell env col e) d).
  { intros e d _. unfold extract_element, text_cell. rewrite Hl.
    now destruct (as_numeric col). }
  rewrite (extract_elements_cells env url col (text_cell env col) _ Hcell
             data errors v G).
  unfold bind, lift, debug, ret, PyDict.len_at.
  rewrite get_set_same, List.length_app, length_map.
  unfold advance. cbn [fst snd debug_info events driver].
  now rewrite <- !app_assoc.
Qed.

(** X18: a column with a name and a selector that is no link column and
    whose exact class is found leaves its loop round without an error: the
    cells of the matched elements are appended to its column in document
    order, only the exact lookup is made, and the trace gets three lines,
    "Looking for", the count of Strategy 1 and the final count, which is the
    earlier length of the column plus the number of matches. *)
Theorem exact_text_column (env : Env) (url : string) (soup : Soup)
  (col : Column) (css_class : string) (data : Dict) (errors : list string)
  (v : list Cell) (st : State) :
  nonempty css_class = true -> nonempty (name col) = true ->
  is_link col = false ->
  exact_matches soup col css_class <> [] ->
  PyDict.get (name col) data = Some v ->
  process_column env url soup col css_class data errors st
    = (Ok (PyDict.set (name col)
             (v ++ map (text_cell env col) (exact_matches soup col css_class))%list
             data,
           errors),
       advance st
         [ "Looking for: " ++ tag col ++ "." ++ css_class;
           "  Strategy 1 (exact class): "
             ++ Str.of_nat (List.length (exact_matches soup col css_class))
             ++ " elements";
           "  Final count for " ++ name col ++ ": "
             ++ Str.of_nat
                  (List.length v
                   + List.length (exact_matches soup col css_class)) ]
         [ FindAllExact (tag col) css_class ]).
Proof. apply exact_text_column_run. Qed.

Lemma exact_text_column_witness :
  process_column (Demo.env 200 Demo.page) "http://x" Demo.page
    (Demo.col "A" "div") "card" [("A", [VNone])] [] init
    = (Ok ([("A", [VNone; VStr "Ada"])], []),
       advance init
         [ "Looking for: div.card"; "  Strategy 1 (exact class): 1 elements";
           "  Final count for A: 2" ]
         [ FindAllExact "div" "card" ]).
Proof.
  rewrite (exact_text_column (Demo.env 200 Demo.page) "http://x" Demo.page
             (Demo.col "A" "div") "card" [("A", [VNone])] [] [VNone] init
             eq_refl eq_refl eq_refl);
    [reflexivity | vm_compute; discriminate | reflexivity].
Defined.

(** X19: a scrape for a single column that is no link column, on a page
    fetched with status 200 (saving switched off) on which the exact class
    is found, returns the table with that one column, holding the cells of
    the matched elements in document order and nothing else, and no error. *)
Theorem single_column_scrape (env : Env) (url : string)
  (col : Column) (css_class : string) (response : Response) :
  requests_get env url (timeout env) = Ok response ->
  status_code response = 200%Z ->
  save_html env = false ->
  nonempty css_class = true -> nonempty (name col) = true ->
  is_link col = false ->
  exact_matches (html_parser env (content response)) col css_class <> [] ->
  outcome_table (scrape_with_requests env url [col] [css_class])
    = Some [ (name col,
              map (text_cell env col)
                (exact_matches (html_parser env (content response))
                   col css_class)) ] /\
  outcome_errors (scrape_with_requests env url [col] [css_class]) = [].
Proof.
  intros Hget Hst Hsave Hc Hn Hl Hne.
  unfold scrape_with_requests, run_requests. cbn [fst].
  rewrite (body_after_fetch env url [col] [css_class] response Hget Hst).
  set (soup := html_parser env (content response)) in *.
  assert (Hinit : init_data [col] = [(name col, [])]).
  { unfold init_data. cbn [fold_left]. now rewrite Hn. }
  assert (R : fst (scrape_soup env url soup [col] [css_class] (after_fetch response))
              = Ok (Some [(name col,
                           map (text_cell env col)
                             (exact_matches soup col css_class))], [])).
  { unfold scrape_soup.
    rewrite (bind_ok _ _ _ _ _ (log_page_content_run env soup url _)).
    unfold save_page. rewrite Hsave. unfold bind at 1, ret at 1.
    cbn [combine process_columns]. rewrite Hinit.
    unfold bind at 1. unfold bind at 1.
    rewrite (exact_text_column_run env url soup col css_class
               [(name col, [])] [] [] _ Hc Hn Hl Hne)
      by (cbn [PyDict.get]; now rewrite String.eqb_refl).
    unfold ret at 1. cbn [fst snd PyDict.set app].
    rewrite String.eqb_refl.
    rewrite (assemble_uniform (List.length (exact_matches soup col css_class))).
    - reflexivity.
    - destruct (exact_matches soup col css_class); [congruence | simpl; lia].
    - discriminate.
    - constructor; [|constructor]. cbn [snd]. apply length_map. }
  destruct (scrape_soup env url soup [col] [css_class] (after_fetch response))
    as [[[df errors]|msg] st]; cbn [fst] in R; inversion R; subst.
  split; reflexivity.
Qed.

Lemma single_column_scrape_witness :
  outcome_table
    (scrape_with_requests (Demo.env 200 Demo.page) "http://x"
       [Demo.col "A" "div"] ["card"])
    = Some [("A", [VStr "Ada"])].
Proof.
  destruct (single_column_scrape (Demo.env 200 Demo.page) "http://x"
              (Demo.col "A" "div") "card"
              {| status_code := 200; content := "<html></html>" |}
              eq_refl eq_refl eq_refl eq_refl eq_refl eq_refl) as [H _].
  - vm_compute. discriminate.
  - rewrite H. reflexivity.
Defined.
